(** * service-wru-validator: deployment stack and validation core

    The repository deploys one Python Lambda (the WRU draft validator) with
    the AWS CDK.  This development embeds

    - [Config]: [getStackProps] of [infrastructure/stage/config.ts];
    - [Deployment]: the constructor of [WruValidatorStack]
      ([infrastructure/stage/deployment-stack.ts]) as a computation over the
      construct tree of the stack;
    - [Toolchain]: the [stackConfig] of [StatelessStack]
      ([infrastructure/toolchain/stateless-stack.ts]);
    - [Core]: the validation-and-relay handler the stack deploys
      ([app/wru_validator/lambda/wru_draft_validator.py]).
*)

From stdpp Require Import gmap strings list fin_maps.
From Stdlib Require Import Ascii ZArith NArith Lia.

Set Warnings "-register-all".
Local Open Scope string_scope.

(** ** The parts of aws-cdk-lib the stack uses *)

Module Cdk.

Inductive Architecture := ARM_64 | X86_64.

Inductive Runtime := PYTHON_3_12.

(** [Duration.seconds(n)] *)
Record Duration := { toSeconds : N }.
Definition Duration_seconds (n : N) : Duration := {| toSeconds := n |}.

(** [VpcLookupOptions] of aws-ec2: the search keys of [Vpc.fromLookup]. *)
Record VpcLookupOptions := {
  vpcName : option string;
  vpcId : option string;
  isDefault : option bool;
  tags : gmap string string;
}.

(** [new PolicyStatement({ actions, resources })]; the effect is the
    default one, Allow. *)
Record PolicyStatement := {
  actions : list string;
  resources : list string;
}.

(** [ManagedPolicy.fromAwsManagedPolicyName(name)]: a reference to a policy
    that AWS owns, known to the stack by its name only. *)
Record ManagedPolicy := { managedPolicyName : string }.
Definition fromAwsManagedPolicyName (name : string) : ManagedPolicy :=
  {| managedPolicyName := name |}.

Record ServicePrincipal := { service : string }.

(** A [Role]: [addManagedPolicy] and [addToPolicy] mutate it after its
    creation, so the stack keeps roles in its construct tree and everything
    else holds the construct id of the role. *)
Record Role := {
  assumedBy : ServicePrincipal;
  description : string;
  managedPolicies : list ManagedPolicy;
  policy : list PolicyStatement;
}.

Definition role_addManagedPolicy (p : ManagedPolicy) (r : Role) : Role :=
  {| assumedBy := assumedBy r; description := description r;
     managedPolicies := (managedPolicies r ++ [p])%list; policy := policy r |}.

Definition role_addToPolicy (s : PolicyStatement) (r : Role) : Role :=
  {| assumedBy := assumedBy r; description := description r;
     managedPolicies := managedPolicies r; policy := (policy r ++ [s])%list |}.

(** The partitions of AWS, which [Stack.partition] ranges over. *)
Inductive Partition := aws | aws_cn | aws_us_gov | aws_iso | aws_iso_b.

Definition partitionString (p : Partition) : string :=
  match p with
  | aws => "aws"
  | aws_cn => "aws-cn"
  | aws_us_gov => "aws-us-gov"
  | aws_iso => "aws-iso"
  | aws_iso_b => "aws-iso-b"
  end.

(** The environment of the stack: [Stack.partition], [this.region],
    [this.account]. *)
Record Environment := {
  partition : Partition;
  region : string;
  account : string;
}.

(** [Stack.formatArn({ service, resource, resourceName })] with the default
    format, resource and resource name separated by a slash. *)
Definition formatArn (env : Environment) (svc res resName : string) : string :=
  "arn:" ++ partitionString (partition env) ++ ":" ++ svc ++ ":" ++ region env ++ ":"
    ++ account env ++ ":" ++ res ++ "/" ++ resName.

Record IEventBus := {
  eventBusName : string;
  eventBusArn : string;
}.

(** [EventBus.fromEventBusName(scope, id, eventBusName)] *)
Definition fromEventBusName (env : Environment) (name : string) : IEventBus :=
  {| eventBusName := name;
     eventBusArn := formatArn env "events" "event-bus" name |}.

(** [Vpc.fromLookup(scope, id, options)]: the VPC the options find. *)
Record IVpc := { vpcLookup : VpcLookupOptions }.

(** [SecurityGroup.fromLookupByName(scope, id, name, vpc)]; the VPC is
    given by the construct id it has in the stack. *)
Record ISecurityGroup := {
  securityGroupName : string;
  securityGroupVpc : string;
}.

(** [vpcSubnets: { subnets: vpc.privateSubnets }] *)
Inductive SubnetSelection := PrivateSubnetsOf (vpc : string).

(** [new PythonLayerVersion(scope, id, props)] *)
Record PythonLayerVersion := {
  layerEntry : string;
  compatibleRuntimes : list Runtime;
  compatibleArchitectures : list Architecture;
  layerDescription : string;
}.

(** The props object of [new PythonFunction(scope, id, props)].  A key that
    is absent from the object literal is [None].  Layers, security groups,
    the VPC and the role are held by construct id: they are the objects of
    the stack, not copies. *)
Record PythonFunctionProps := {
  entry : option string;
  runtime : option Runtime;
  layers : option (list string);
  environment : option (gmap string string);
  securityGroups : option (list string);
  vpc : option string;
  vpcSubnets : option SubnetSelection;
  role : option string;
  architecture : option Architecture;
  memorySize : option N;
  index : option string;
  handler : option string;
  timeout : option Duration;
}.

(** One key of [{ ...a, ...b }]: the later object wins where it has the key. *)
Definition later {A} (a b : option A) : option A :=
  match b with Some _ => b | None => a end.

(** The object spread [{ ...a, ...b }]. *)
Definition spread (a b : PythonFunctionProps) : PythonFunctionProps :=
  {| entry := later (entry a) (entry b);
     runtime := later (runtime a) (runtime b);
     layers := later (layers a) (layers b);
     environment := later (environment a) (environment b);
     securityGroups := later (securityGroups a) (securityGroups b);
     vpc := later (vpc a) (vpc b);
     vpcSubnets := later (vpcSubnets a) (vpcSubnets b);
     role := later (role a) (role b);
     architecture := later (architecture a) (architecture b);
     memorySize := later (memorySize a) (memorySize b);
     index := later (index a) (index b);
     handler := later (handler a) (handler b);
     timeout := later (timeout a) (timeout b) |}.

(** What a scope holds under a construct id. *)
Inductive Construct :=
| CEventBus (b : IEventBus)
| CVpc (v : IVpc)
| CSecurityGroup (g : ISecurityGroup)
| CLayer (l : PythonLayerVersion)
| CRole (r : Role)
| CFunction (f : PythonFunctionProps).

(** The children of a scope, oldest first. *)
Definition Tree := list (string * Construct).

Fixpoint tryFindChild (id : string) (t : Tree) : option Construct :=
  match t with
  | [] => None
  | (i, c) :: t' => if String.eqb i id then Some c else tryFindChild id t'
  end.

(** [new C(scope, id, ...)]: a second construct under an id the scope
    already has is an error ("There is already a Construct with name"). *)
Definition addChild (id : string) (c : Construct) (t : Tree) : option Tree :=
  match tryFindChild id t with
  | Some _ => None
  | None => Some (t ++ [(id, c)])%list
  end.

(** In-place update of the role under [id]. *)
Fixpoint updateRole (id : string) (f : Role -> Role) (t : Tree) : Tree :=
  match t with
  | [] => []
  | (i, CRole r) :: t' =>
      if String.eqb i id then (i, CRole (f r)) :: t'
      else (i, CRole r) :: updateRole id f t'
  | ic :: t' => ic :: updateRole id f t'
  end.

Definition findRole (id : string) (t : Tree) : option Role :=
  match tryFindChild id t with
  | Some (CRole r) => Some r
  | _ => None
  end.

(** The Lambda functions of a scope, with their construct ids. *)
Fixpoint functionsOf (t : Tree) : list (string * PythonFunctionProps) :=
  match t with
  | [] => []
  | (i, CFunction f) :: t' => (i, f) :: functionsOf t'
  | _ :: t' => functionsOf t'
  end.

End Cdk.

(** ** infrastructure/stage/config.ts *)

(** [StageName] of the platform's shared configuration. *)
Inductive StageName := BETA | GAMMA | PROD.

Definition stageString (s : StageName) : string :=
  match s with BETA => "BETA" | GAMMA => "GAMMA" | PROD => "PROD" end.

(** [WruValidatorStackProps]; the optional keys it inherits from [StackProps]
    are never set in this repository. *)
Record WruValidatorStackProps := {
  lambdaSecurityGroupName : string;
  vpcProps : Cdk.VpcLookupOptions;
  mainBusName : string;
  stage : string;
}.

(** The constants [config.ts] imports from the platform's shared
    configuration package, which this repository does not hold. *)
Record SharedConfig := {
  EVENT_BUS_NAME : string;
  SHARED_SECURITY_GROUP_NAME : string;
  VPC_LOOKUP_PROPS : Cdk.VpcLookupOptions;
}.

Module Config.
Section WithSharedConfig.
Variable shared : SharedConfig.

Definition getStackProps (stage : StageName) : WruValidatorStackProps :=
  {| vpcProps := VPC_LOOKUP_PROPS shared;
     lambdaSecurityGroupName := SHARED_SECURITY_GROUP_NAME shared;
     mainBusName := EVENT_BUS_NAME shared;
     stage := stageString stage |}.
End WithSharedConfig.
End Config.

(** ** infrastructure/stage/deployment-stack.ts *)

Module Deployment.
Import Cdk.

(** Building a stack: the construct tree is the state, and a computation
    stops with [None] where the library throws. *)
Definition Build (A : Type) : Type := Tree -> option (A * Tree).

#[export] Instance build_ret : MRet Build := fun A a t => Some (a, t).

#[export] Instance build_bind : MBind Build := fun A B k m t =>
  match m t with
  | Some (a, t') => k a t'
  | None => None
  end.

(** [new C(this, id, ...)] hands back the construct, here its id. *)
Definition create (id : string) (c : Construct) : Build string :=
  fun t => match addChild id c t with
           | Some t' => Some (id, t')
           | None => None
           end.

Definition addManagedPolicy (roleId : string) (p : ManagedPolicy) : Build unit :=
  fun t => Some (tt, updateRole roleId (role_addManagedPolicy p) t).

Definition addToPolicy (roleId : string) (s : PolicyStatement) : Build unit :=
  fun t => Some (tt, updateRole roleId (role_addToPolicy s) t).

(** [bus.grantPutEventsTo(fn)]: the library adds the statement
    [{ actions: ['events:PutEvents'], resources: [bus.eventBusArn] }] to the
    policy of the principal of [fn], which is the role of [fn].  (A
    function made without a role gets one from the library; the stack
    always passes a role, and that other path is left out here.) *)
Definition grantPutEventsTo (bus : IEventBus) (fnId : string) : Build unit :=
  fun t => match tryFindChild fnId t with
           | Some (CFunction f) =>
               match role f with
               | Some roleId =>
                   addToPolicy roleId
                     {| actions := ["events:PutEvents"];
                        resources := [eventBusArn bus] |} t
               | None => None
               end
           | _ => None
           end.

(** The fields of [this] that the constructor assigns.  The class also
    declares [validatorLambdaRole], which nothing assigns or reads. *)
Record Fields := {
  props : WruValidatorStackProps;
  mainBus : IEventBus;
  vpc_ : string;
  lambdaSG : string;
  lambdaEnv : gmap string string;
  baseLayer : string;
  lambdaRuntimePythonVersion : Runtime;
  lambdaRole : string;
}.

Section Stack.
(** The environment the stack resolves [this.region] and [this.account]
    in, and [__dirname] of the compiled module. *)
Variable env : Environment.
Variable dirname : string.

(** [path.join(__dirname, '../../app/')]: two levels up from
    [infrastructure/stage], the [app/] directory of the repository.  The
    path is kept as written. *)
Definition appEntry : string := dirname ++ "/" ++ "../../app/".

Definition makeLambdaEnv (props : WruValidatorStackProps) : gmap string string :=
  <["SCHEMA_REGISTRY_NAME" := "orcabus.workflowmanager"]>
  (<["SCHEMA_NAME" := "orcabus.workflowmanager@WorkflowRunUpdate"]>
  (<["EVENT_BUS_NAME" := mainBusName props]>
  (<["POWERTOOLS_LOG_LEVEL" := "INFO"]>
  (<["POWERTOOLS_SERVICE_NAME" := "wru-validator"]> ∅)))).

(** The statement under "Add EventBridge Schema Registry permissions". *)
Definition schemaRegistryStatement : PolicyStatement :=
  {| actions := ["schemas:DescribeSchema"; "schemas:GetDiscoveredSchema";
                 "schemas:ListSchemas"];
     resources :=
       ["arn:aws:schemas:" ++ region env ++ ":" ++ account env
          ++ ":registry/discovered-schemas";
        "arn:aws:schemas:" ++ region env ++ ":" ++ account env
          ++ ":schema/discovered-schemas/*"] |}.

(** The statement under "Add EventBridge put events permission". *)
Definition putEventsStatement (bus : IEventBus) : PolicyStatement :=
  {| actions := ["events:PutEvents"];
     resources := [eventBusArn bus] |}.

Definition createPythonFunction (this : Fields) (name : string)
    (functionProps : PythonFunctionProps) : Build string :=
  create name (CFunction (spread
    {| entry := Some appEntry;
       runtime := Some (lambdaRuntimePythonVersion this);
       layers := Some [baseLayer this];
       environment := Some (lambdaEnv this);
       securityGroups := Some [lambdaSG this];
       vpc := Some (vpc_ this);
       vpcSubnets := Some (PrivateSubnetsOf (vpc_ this));
       role := Some (lambdaRole this);
       architecture := Some ARM_64;
       memorySize := Some 1024%N;
       index := None; handler := None; timeout := None |}
    functionProps)).

Definition createEventBridgeValidator (this : Fields) : Build unit :=
  procFn ← createPythonFunction this "WruDraftValidator"
    {| entry := None; runtime := None; layers := None; environment := None;
       securityGroups := None; vpc := None; vpcSubnets := None;
       role := None; architecture := None; memorySize := None;
       index := Some "wru_validator/lambda/wru_draft_validator.py";
       handler := Some "lambda_handler";
       timeout := Some (Duration_seconds 28) |} ;
  grantPutEventsTo (mainBus this) procFn.

(** [new WruValidatorStack(scope, id, props)] *)
Definition constructor (id : string) (props : WruValidatorStackProps)
    : Build Fields :=
  let mainBus := fromEventBusName env (mainBusName props) in
  create "OrcaBusMain" (CEventBus mainBus) ;;
  vpc ← create "MainVpc" (CVpc {| vpcLookup := vpcProps props |}) ;
  lambdaSG ← create "LambdaSecurityGroup"
    (CSecurityGroup {| securityGroupName := lambdaSecurityGroupName props;
                       securityGroupVpc := vpc |}) ;
  let lambdaEnv := makeLambdaEnv props in
  baseLayer ← create "BaseLayer"
    (CLayer {| layerEntry := appEntry;
               compatibleRuntimes := [PYTHON_3_12];
               compatibleArchitectures := [ARM_64];
               layerDescription := "Base layer with common dependencies" |}) ;
  lambdaRole ← create "LambdaRole"
    (CRole {| assumedBy := {| service := "lambda.amazonaws.com" |};
              description := "Lambda execution role for " ++ id;
              managedPolicies := []; policy := [] |}) ;
  addManagedPolicy lambdaRole
    (fromAwsManagedPolicyName "service-role/AWSLambdaBasicExecutionRole") ;;
  addManagedPolicy lambdaRole
    (fromAwsManagedPolicyName "service-role/AWSLambdaVPCAccessExecutionRole") ;;
  addManagedPolicy lambdaRole
    (fromAwsManagedPolicyName "AmazonSSMReadOnlyAccess") ;;
  addToPolicy lambdaRole schemaRegistryStatement ;;
  addToPolicy lambdaRole (putEventsStatement mainBus) ;;
  let this :=
    {| props := props; mainBus := mainBus; vpc_ := vpc;
       lambdaSG := lambdaSG; lambdaEnv := lambdaEnv;
       baseLayer := baseLayer;
       lambdaRuntimePythonVersion := PYTHON_3_12;
       lambdaRole := lambdaRole |} in
  createEventBridgeValidator this ;;
  mret this.

(** The stack a deployment synthesises: the fields and the construct
    tree, from an empty scope. *)
Definition synth (id : string) (props : WruValidatorStackProps)
    : option (Fields * Tree) :=
  constructor id props [].

End Stack.
End Deployment.

(** ** infrastructure/toolchain/stateless-stack.ts *)

Module Toolchain.

(** The [stackConfig] object handed to [DeploymentStackPipeline]. *)
Record StackConfig := {
  beta : WruValidatorStackProps;
  gamma : WruValidatorStackProps;
  prod : WruValidatorStackProps;
}.

Definition stackConfig (shared : SharedConfig) : StackConfig :=
  {| beta := Config.getStackProps shared BETA;
     gamma := Config.getStackProps shared GAMMA;
     prod := Config.getStackProps shared PROD |}.

Definition githubBranch : string := "main".
Definition githubRepo : string := "service-wru-validator".
Definition stackName : string := "WruValidatorStack".
Definition pipelineName : string := "OrcaBus-StatelessWruValidator".

End Toolchain.

(** Sample values for running the definitions. *)
Module Sample.
Definition shared : SharedConfig :=
  {| EVENT_BUS_NAME := "OrcaBusMain";
     SHARED_SECURITY_GROUP_NAME := "OrcaBusSharedComputeSecurityGroup";
     VPC_LOOKUP_PROPS :=
       {| Cdk.vpcName := Some "main-vpc"; Cdk.vpcId := None;
          Cdk.isDefault := None;
          Cdk.tags := {[ "Stack" := "networking" ]} |} |}.

Definition env : Cdk.Environment :=
  {| Cdk.partition := Cdk.aws; Cdk.region := "ap-southeast-2";
     Cdk.account := "123456789012" |}.

Definition dirname : string := "/repo/infrastructure/stage".
End Sample.


(** ** What a synthesised stack grants and configures *)

Module Granted.
Import Cdk.

Definition functionNamed (id : string) (t : Tree) : option PythonFunctionProps :=
  match tryFindChild id t with
  | Some (CFunction f) => Some f
  | _ => None
  end.

(** The statements of the policy of the role a function runs under, read
    from the tree: the role as it is at the end, not as it was when the
    function was made. *)
Definition statementsOf (f : PythonFunctionProps) (t : Tree) : list PolicyStatement :=
  match role f with
  | Some roleId =>
      match findRole roleId t with
      | Some r => policy r
      | None => []
      end
  | None => []
  end.

Definition environmentOf (f : PythonFunctionProps) : gmap string string :=
  default ∅ (environment f).

(** [s] starts with [p]. *)
Fixpoint startsWith (p s : string) : bool :=
  match p with
  | EmptyString => true
  | String a p' =>
      match s with
      | EmptyString => false
      | String b s' => Ascii.eqb a b && startsWith p' s'
      end
  end.

(** IAM actions are named [service:Operation]. *)
Definition eventBusAction (a : string) : bool := startsWith "events:" a.
Definition registryAction (a : string) : bool := startsWith "schemas:" a.

(** The describe, get and list operations of the schema registry. *)
Definition readOnlyRegistryAction (a : string) : bool :=
  startsWith "schemas:Describe" a
  || startsWith "schemas:Get" a
  || startsWith "schemas:List" a.

(** The ARN of a resource of the schema registry service in the account
    and region of the stack. *)
Definition schemasArn (env : Environment) (resource : string) : string :=
  "arn:aws:schemas:" ++ region env ++ ":" ++ account env ++ ":" ++ resource.

Definition isSchemasArn (arn : string) : bool := startsWith "arn:aws:schemas:" arn.

(** The text up to the first [sep], and the text after it. *)
Fixpoint splitAt (sep : ascii) (s : string) : string * option string :=
  match s with
  | EmptyString => (EmptyString, None)
  | String c s' =>
      if Ascii.eqb c sep then (EmptyString, Some s')
      else let (a, b) := splitAt sep s' in (String c a, b)
  end.

Definition splitSlash : string -> string * option string := splitAt "/".

(** The text after the first [n] colons. *)
Fixpoint afterColons (n : nat) (s : string) : option string :=
  match n with
  | 0 => Some s
  | S n' =>
      match snd (splitAt ":" s) with
      | Some rest => afterColons n' rest
      | None => None
      end
  end.

(** The resource of an ARN, [arn:partition:service:region:account:resource]. *)
Definition arnResource (arn : string) : option string := afterColons 5 arn.

(** The registry a resource path of the schema registry service names:
    [registry/<registry>] or [schema/<registry>/<schema>]. *)
Definition resourceRegistry (resource : string) : option string :=
  match splitSlash resource with
  | (kind, Some rest) =>
      if String.eqb kind "registry" then Some rest
      else if String.eqb kind "schema" then Some (fst (splitSlash rest))
      else None
  | _ => None
  end.

(** The five options of the configuration surface. *)
Inductive ConfigOption :=
| optBusName
| optSchemaName
| optRegistryName
| optStrict
| optTimeoutMs.

(** The variables of the environment that configure the logger of AWS
    Lambda Powertools. *)
Definition loggerSettings : list string :=
  ["POWERTOOLS_SERVICE_NAME"; "POWERTOOLS_LOG_LEVEL"].

(** An environment has a setting for each option when the options can be
    given variables of the environment, one each, none of them the
    logger's. *)
Definition coversSurface (e : gmap string string) : Prop :=
  exists var : ConfigOption -> string,
    (forall o1 o2, var o1 = var o2 -> o1 = o2) /\
    forall o, is_Some (e !! var o) /\ ~ In (var o) loggerSettings.

(** [props] with the stage label replaced. *)
Definition withStage (label : string) (p : WruValidatorStackProps)
    : WruValidatorStackProps :=
  {| lambdaSecurityGroupName := lambdaSecurityGroupName p;
     vpcProps := vpcProps p;
     mainBusName := mainBusName p;
     stage := label |}.

Section Synthesised.
Variable env : Environment.
Variable dirname : string.
Variable id : string.
Variable props : WruValidatorStackProps.

(** The function and the role as the constructor leaves them. *)
Definition theFunction : PythonFunctionProps :=
  {| entry := Some (Deployment.appEntry dirname);
     runtime := Some PYTHON_3_12;
     layers := Some ["BaseLayer"];
     environment := Some (Deployment.makeLambdaEnv props);
     securityGroups := Some ["LambdaSecurityGroup"];
     vpc := Some "MainVpc";
     vpcSubnets := Some (PrivateSubnetsOf "MainVpc");
     role := Some "LambdaRole";
     architecture := Some ARM_64;
     memorySize := Some 1024%N;
     index := Some "wru_validator/lambda/wru_draft_validator.py";
     handler := Some "lambda_handler";
     timeout := Some (Duration_seconds 28) |}.

Definition theBus : IEventBus := fromEventBusName env (mainBusName props).

Definition theRole : Role :=
  {| assumedBy := {| service := "lambda.amazonaws.com" |};
     description := "Lambda execution role for " ++ id;
     managedPolicies :=
       [fromAwsManagedPolicyName "service-role/AWSLambdaBasicExecutionRole";
        fromAwsManagedPolicyName "service-role/AWSLambdaVPCAccessExecutionRole";
        fromAwsManagedPolicyName "AmazonSSMReadOnlyAccess"];
     policy :=
       [Deployment.schemaRegistryStatement env;
        Deployment.putEventsStatement theBus;
        Deployment.putEventsStatement theBus] |}.

Definition theFields : Deployment.Fields :=
  {| Deployment.props := props;
     Deployment.mainBus := theBus;
     Deployment.vpc_ := "MainVpc";
     Deployment.lambdaSG := "LambdaSecurityGroup";
     Deployment.lambdaEnv := Deployment.makeLambdaEnv props;
     Deployment.baseLayer := "BaseLayer";
     Deployment.lambdaRuntimePythonVersion := PYTHON_3_12;
     Deployment.lambdaRole := "LambdaRole" |}.

Definition theTree : Tree :=
  [("OrcaBusMain", CEventBus theBus);
   ("MainVpc", CVpc {| vpcLookup := vpcProps props |});
   ("LambdaSecurityGroup",
    CSecurityGroup
      {| securityGroupName := lambdaSecurityGroupName props;
         securityGroupVpc := "MainVpc" |});
   ("BaseLayer",
    CLayer {| layerEntry := Deployment.appEntry dirname;
              compatibleRuntimes := [PYTHON_3_12];
              compatibleArchitectures := [ARM_64];
              layerDescription := "Base layer with common dependencies" |});
   ("LambdaRole", CRole theRole);
   ("WruDraftValidator", CFunction theFunction)].
End Synthesised.

End Granted.

(** ** app/wru_validator: the validation-and-relay core *)

Module Core.
Local Open Scope list_scope.

(** The stack deploys [app/wru_validator/lambda/wru_draft_validator.py]; the
    Python package is not among the sources at hand, and everything in this
    module is modelled from the specification.  The model is sequential: the
    records of a batch are handled in turn, each dependency call is bounded
    by the timeout, and the deadline of the invocation as a whole is left
    out. *)

(** *** Data model *)

(** Modelled from the spec: the Python package [app/wru_validator] is
    missing; [SchemaIdentifier] is that of section 3, a registry name and a
    schema name. *)
Record SchemaIdentifier := {
  registryName : string;
  schemaName : string;
}.

(** Modelled from the spec: the Python package [app/wru_validator] is
    missing; a field of a definition has a name, a required flag and a type
    tag (section 3). *)
Inductive FieldSpec (T : Type) := mkField (name : string) (required : bool) (type : T).
Arguments mkField {T}.

(** Modelled from the spec: the Python package [app/wru_validator] is
    missing; the type tags are string, number, boolean, object, array and
    enum-of-values (section 3), and an object or an array may declare its
    nested shape (section 4.2). *)
Inductive TypeTag :=
| TString
| TNumber
| TBoolean
| TObject (shape : option (list (FieldSpec TypeTag)))
| TArray (items : option TypeTag)
| TEnum (members : list string).

Definition SchemaDefinition := list (FieldSpec TypeTag).

Definition fieldName {T} (f : FieldSpec T) : string :=
  match f with mkField n _ _ => n end.
Definition fieldRequired {T} (f : FieldSpec T) : bool :=
  match f with mkField _ r _ => r end.
Definition fieldType {T} (f : FieldSpec T) : T :=
  match f with mkField _ _ t => t end.

(** Modelled from the spec: the Python package [app/wru_validator] is
    missing; a draft record is an untyped, self-describing payload, a mapping
    from field name to value (section 3).  The bindings are kept in the order
    the producer sent them; a name is read at its first binding. *)
Inductive Value :=
| VNull
| VString (s : string)
| VNumber (n : Z)
| VBool (b : bool)
| VObject (fields : list (string * Value))
| VArray (items : list Value).

Definition DraftRecord := list (string * Value).

Fixpoint field (n : string) (r : list (string * Value)) : option Value :=
  match r with
  | [] => None
  | (k, v) :: r' => if String.eqb k n then Some v else field n r'
  end.

Inductive PathSeg := Key (name : string) | Index (i : nat).
Definition FieldPath := list PathSeg.

Inductive Presence := Required | Absent.

Inductive Expectation :=
| ExpectedPresence (p : Presence)
| ExpectedType (t : TypeTag).

(** Modelled from the spec: the Python package [app/wru_validator] is
    missing; a violation carries the path of the field, the expected type or
    presence, and a description of what was found (section 3). *)
Record FieldViolation := {
  fieldPath : FieldPath;
  expected : Expectation;
  actualDescription : string;
}.

(** Modelled from the spec: the Python package [app/wru_validator] is
    missing; the tagged result of section 3. *)
Inductive ValidationOutcome :=
| Valid (canonicalRecord : DraftRecord)
| Invalid (violations : list FieldViolation).

(** *** Validator (specification, section 4.2) *)

Definition describe (v : Value) : string :=
  match v with
  | VNull => "null"
  | VString _ => "string"
  | VNumber _ => "number"
  | VBool _ => "boolean"
  | VObject _ => "object"
  | VArray _ => "array"
  end.

(** Modelled from the spec: the validator of [app/wru_validator] is missing;
    the runtime value's type matches the declared type tag: numbers must be
    numeric, booleans boolean, and an enum takes one of its values. *)
Definition accepts (t : TypeTag) (v : Value) : bool :=
  match t, v with
  | TString, VString _ => true
  | TNumber, VNumber _ => true
  | TBoolean, VBool _ => true
  | TObject _, VObject _ => true
  | TArray _, VArray _ => true
  | TEnum ms, VString s => existsb (String.eqb s) ms
  | _, _ => false
  end.

Definition mismatch (t : TypeTag) (v : Value) : FieldViolation :=
  {| fieldPath := []; expected := ExpectedType t;
     actualDescription := describe v |}.

Definition missing (n : string) : FieldViolation :=
  {| fieldPath := [Key n]; expected := ExpectedPresence Required;
     actualDescription := "missing" |}.

Definition unrecognized (n : string) (v : Value) : FieldViolation :=
  {| fieldPath := [Key n]; expected := ExpectedPresence Absent;
     actualDescription := describe v |}.

(** A violation found inside a field or an array item, seen from outside. *)
Definition under (seg : PathSeg) (x : FieldViolation) : FieldViolation :=
  {| fieldPath := seg :: fieldPath x; expected := expected x;
     actualDescription := actualDescription x |}.

Definition declares {T} (fs : list (FieldSpec T)) (n : string) : bool :=
  existsb (fun f => String.eqb (fieldName f) n) fs.

(** The fields of a record that the definition does not recognize. *)
Definition unrecognizedFields {T} (fs : list (FieldSpec T))
    (r : list (string * Value)) : list FieldViolation :=
  flat_map (fun kv => if declares fs (fst kv) then []
                      else [unrecognized (fst kv) (snd kv)]) r.

(** Modelled from the spec: the validator of [app/wru_validator] is missing;
    for every required field, presence; for every present field the
    definition recognizes, the type; nested shapes structurally; unrecognized
    fields only in strict mode.  All violations are collected, none stops
    the pass. *)
Fixpoint check (strict : bool) (t : TypeTag) (v : Value) : list FieldViolation :=
  match t, v with
  | TObject (Some fs), VObject r =>
      (fix fields (fs : list (FieldSpec TypeTag)) : list FieldViolation :=
         match fs with
         | [] => []
         | mkField n req ty :: fs' =>
             match field n r with
             | None => if req then [missing n] else []
             | Some v' => map (under (Key n)) (check strict ty v')
             end ++ fields fs'
         end) fs
      ++ (if strict then unrecognizedFields fs r else [])
  | TArray (Some ty), VArray vs =>
      concat (imap (fun i v' => map (under (Index i)) (check strict ty v')) vs)
  | _, _ => if accepts t v then [] else [mismatch t v]
  end.

(** The violations of the fields of an object, field by field: what [check]
    computes for a declared shape, before the unrecognized fields. *)
Definition checkFields (strict : bool) (fs : list (FieldSpec TypeTag))
    (r : list (string * Value)) : list FieldViolation :=
  flat_map (fun f =>
    match field (fieldName f) r with
    | None => if fieldRequired f then [missing (fieldName f)] else []
    | Some v' => map (under (Key (fieldName f))) (check strict (fieldType f) v')
    end) fs.

(** Modelled from the spec: the validator of [app/wru_validator] is missing;
    the canonical record has only the fields the schema declares, in the
    order of the schema. *)
Fixpoint canonical (t : TypeTag) (v : Value) : Value :=
  match t, v with
  | TObject (Some fs), VObject r =>
      VObject
        ((fix fields (fs : list (FieldSpec TypeTag)) : list (string * Value) :=
            match fs with
            | [] => []
            | mkField n _ ty :: fs' =>
                match field n r with
                | None => fields fs'
                | Some v' => (n, canonical ty v') :: fields fs'
                end
            end) fs)
  | TArray (Some ty), VArray vs => VArray (map (canonical ty) vs)
  | _, _ => v
  end.

Definition canonicalRecord (def : SchemaDefinition) (r : DraftRecord) : DraftRecord :=
  match canonical (TObject (Some def)) (VObject r) with
  | VObject c => c
  | _ => []
  end.

(** Modelled from the spec: the validator of [app/wru_validator] is missing;
    [validate(definition, record)] of section 4.2. *)
Definition validate (strict : bool) (def : SchemaDefinition) (r : DraftRecord)
    : ValidationOutcome :=
  match check strict (TObject (Some def)) (VObject r) with
  | [] => Valid (canonicalRecord def r)
  | vs => Invalid vs
  end.

(** The words of the specification for a record that is not valid: a
    required field is missing, or a value does not match its type tag, at
    the top or inside a declared shape.  [Offends t v p] says so of the
    field at path [p].  (Strict mode adds violations of its own, for fields
    that are no offence otherwise.) *)
Inductive Offends : TypeTag -> Value -> FieldPath -> Prop :=
| off_type t v :
    accepts t v = false -> Offends t v []
| off_missing fs r f :
    In f fs -> fieldRequired f = true -> field (fieldName f) r = None ->
    Offends (TObject (Some fs)) (VObject r) [Key (fieldName f)]
| off_field fs r f v p :
    In f fs -> field (fieldName f) r = Some v -> Offends (fieldType f) v p ->
    Offends (TObject (Some fs)) (VObject r) (Key (fieldName f) :: p)
| off_item ty vs i v p :
    vs !! i = Some v -> Offends ty v p ->
    Offends (TArray (Some ty)) (VArray vs) (Index i :: p).

Definition Offending (def : SchemaDefinition) (r : DraftRecord) (p : FieldPath) : Prop :=
  Offends (TObject (Some def)) (VObject r) p.

(** *** Resolver, emitter, reporter and handler (sections 4.1, 4.3-4.5) *)

(** Modelled from the spec: the handler of [app/wru_validator] is missing;
    the configuration surface of section 6. *)
Record Config := {
  busName : string;
  schema : SchemaIdentifier;
  strict : bool;
  timeoutMs : N;
}.

(** Modelled from the spec: the clients of the registry and of the bus are
    missing; what a dependency answers to one call, and how long it takes
    (section 5). *)
Record Answer (A : Type) := { latencyMs : N; reply : A }.
Arguments latencyMs {A}.
Arguments reply {A}.

(** Modelled from the spec: the client of the registry is missing; it has
    the schema, has no such schema, cannot be reached, or fails otherwise
    (sections 4.1 and 7). *)
Inductive RegistryReply :=
| SchemaFound (def : SchemaDefinition)
| NoSuchSchema
| RegistryUnreachable
| RegistryFault.

(** Modelled from the spec: the client of the bus is missing; it takes the
    event, is throttled or unavailable, or fails otherwise (sections 4.3
    and 7). *)
Inductive BusReply :=
| Accepted
| BusThrottled
| BusFault.

(** Modelled from the spec: the emitter of [app/wru_validator] is missing;
    the envelope of section 3, whose detail type is the schema name. *)
Record OutboundEvent := {
  source : string;
  detailType : string;
  detail : DraftRecord;
  time : N;
}.

Record InboundRecord := {
  inboundId : string;
  payload : DraftRecord;
}.

(** Modelled from the spec: the handler of [app/wru_validator] is missing;
    the error taxonomy of section 7. *)
Inductive ErrorKind :=
| SchemaNotFound
| RegistryUnavailable
| BusUnavailable
| ValidationFailed
| InternalError.

(** Modelled from the spec: the handler of [app/wru_validator] is missing;
    the three statuses a caller sees (sections 3 and 7). *)
Inductive Status := emitted | rejected | transientFailure.

Inductive Detail :=
| Delivered
| Violations (vs : list FieldViolation)
| Failure (e : ErrorKind).

(** Modelled from the spec: the handler of [app/wru_validator] is missing;
    the per-record result of section 3. *)
Record RecordOutcome := {
  recordId : string;
  status : Status;
  outcomeDetail : Detail;
}.

(** Modelled from the spec: the handler of [app/wru_validator] is missing;
    permanent kinds are rejections, transient kinds and defects are left for
    redrive (sections 4.1 and 7). *)
Definition statusOf (e : ErrorKind) : Status :=
  match e with
  | SchemaNotFound | ValidationFailed => rejected
  | RegistryUnavailable | BusUnavailable | InternalError => transientFailure
  end.

(** Modelled from the spec: the failure reporter of [app/wru_validator] is
    missing; the diagnostic of section 4.4. *)
Record Diagnostic := {
  diagnosticSchema : SchemaIdentifier;
  diagnosticViolations : list FieldViolation;
  excerpt : list string;
}.

(** Modelled from the spec: the handler of [app/wru_validator] is missing;
    what an invocation reads and leaves behind: the schema cache of the
    process, the clock, and the calls made on the dependencies so far.  A
    publish call is kept with the position, in its batch, of the record it
    was made for. *)
Record State := {
  cache : option (SchemaIdentifier * SchemaDefinition);
  clock : N;
  registryCalls : nat;
  published : list (nat * OutboundEvent);
  reportCalls : nat;
  reported : list Diagnostic;
}.

Definition Run (A : Type) : Type := State -> A * State.

#[export] Instance run_ret : MRet Run := fun A a st => (a, st).
#[export] Instance run_bind : MBind Run := fun A B k m st =>
  let (a, st') := m st in k a st'.

Definition sameSchema (a b : SchemaIdentifier) : bool :=
  String.eqb (registryName a) (registryName b)
  && String.eqb (schemaName a) (schemaName b).

(** A call bounded by the timeout: an answer that takes longer is not
    waited for. *)
Definition bounded {A} (budget : N) (a : Answer A) : option A :=
  if (budget <? latencyMs a)%N then None else Some (reply a).

Definition elapsed {A} (budget : N) (a : Answer A) : N :=
  N.min budget (latencyMs a).

Section Handler.
(** The dependencies: the registry and the bus, by the number of the
    call, and the reporting channel, which may be broken. *)
Variable registry : nat -> SchemaIdentifier -> Answer RegistryReply.
Variable bus : nat -> string -> OutboundEvent -> Answer BusReply.
Variable reportChannel : nat -> bool.
(** The source identifier of this relay, and the bound on an excerpt. *)
Variable relaySource : string.
Variable excerptLimit : nat.
Variable cfg : Config.

(** Modelled from the spec: the schema resolver of [app/wru_validator] is
    missing; a lookup in the registry, within the timeout.  The cache changes
    only when the registry answers with a definition. *)
Definition lookupRegistry : Run (SchemaDefinition + ErrorKind) := fun st =>
  let a := registry (registryCalls st) (schema cfg) in
  let st' := {| cache := cache st;
                clock := (clock st + elapsed (timeoutMs cfg) a)%N;
                registryCalls := S (registryCalls st);
                published := published st;
                reportCalls := reportCalls st;
                reported := reported st |} in
  match bounded (timeoutMs cfg) a with
  | None => (inr RegistryUnavailable, st')
  | Some RegistryUnreachable => (inr RegistryUnavailable, st')
  | Some NoSuchSchema => (inr SchemaNotFound, st')
  | Some RegistryFault => (inr InternalError, st')
  | Some (SchemaFound def) =>
      (inl def, {| cache := Some (schema cfg, def);
                   clock := clock st';
                   registryCalls := registryCalls st';
                   published := published st';
                   reportCalls := reportCalls st';
                   reported := reported st' |})
  end.

(** The definition the cache holds for the configured schema, if any. *)
Definition cached (st : State) : option SchemaDefinition :=
  match cache st with
  | Some (i, def) => if sameSchema i (schema cfg) then Some def else None
  | None => None
  end.

(** Modelled from the spec: the schema resolver of [app/wru_validator] is
    missing; [resolve(identifier)] of section 4.1, with the cache of the most
    recently resolved definition. *)
Definition resolve : Run (SchemaDefinition + ErrorKind) := fun st =>
  match cached st with
  | Some def => (inl def, st)
  | None => lookupRegistry st
  end.

(** Modelled from the spec: the emitter of [app/wru_validator] is missing;
    [emit(record)] of section 4.3.  The position [pos] of the record in its
    batch goes into the log of calls only. *)
Definition emit (pos : nat) (c : DraftRecord) : Run (option ErrorKind) := fun st =>
  let e := {| source := relaySource;
              detailType := schemaName (schema cfg);
              detail := c;
              time := clock st |} in
  let a := bus (length (published st)) (busName cfg) e in
  let st' := {| cache := cache st;
                clock := (clock st + elapsed (timeoutMs cfg) a)%N;
                registryCalls := registryCalls st;
                published := published st ++ [(pos, e)];
                reportCalls := reportCalls st;
                reported := reported st |} in
  match bounded (timeoutMs cfg) a with
  | Some Accepted => (None, st')
  | Some BusThrottled | None => (Some BusUnavailable, st')
  | Some BusFault => (Some InternalError, st')
  end.

(** Modelled from the spec: the failure reporter of [app/wru_validator] is
    missing; [report(record, violations)] of section 4.4.  A broken channel
    loses the diagnostic and nothing else.  The excerpt keeps the field names
    of the record, no values, up to the bound. *)
Definition report (r : DraftRecord) (vs : list FieldViolation) : Run unit := fun st =>
  let d := {| diagnosticSchema := schema cfg;
              diagnosticViolations := vs;
              excerpt := take excerptLimit (map fst r) |} in
  (tt, {| cache := cache st;
          clock := clock st;
          registryCalls := registryCalls st;
          published := published st;
          reportCalls := S (reportCalls st);
          reported := if reportChannel (reportCalls st)
                      then reported st ++ [d] else reported st |}).

Definition failed (r : InboundRecord) (e : ErrorKind) : RecordOutcome :=
  {| recordId := inboundId r; status := statusOf e; outcomeDetail := Failure e |}.

(** Modelled from the spec: the handler of [app/wru_validator] is missing;
    the state machine of section 4.5, for the record at position [pos] of
    the batch. *)
Definition handleRecord (pos : nat) (r : InboundRecord) : Run RecordOutcome :=
  resolved ← resolve ;
  match resolved with
  | inr e => mret (failed r e)
  | inl def =>
      match validate (strict cfg) def (payload r) with
      | Valid c =>
          sent ← emit pos c ;
          match sent with
          | None => mret {| recordId := inboundId r; status := emitted;
                            outcomeDetail := Delivered |}
          | Some e => mret (failed r e)
          end
      | Invalid vs =>
          report (payload r) vs ;;
          mret {| recordId := inboundId r; status := statusOf ValidationFailed;
                  outcomeDetail := Violations vs |}
      end
  end.

(** Modelled from the spec: the handler of [app/wru_validator] is missing;
    the records of a batch in turn, each on its own, the first at position
    [pos] (section 4.5). *)
Fixpoint handleFrom (pos : nat) (batch : list InboundRecord)
    : Run (list RecordOutcome) :=
  match batch with
  | [] => mret []
  | r :: rest =>
      o ← handleRecord pos r ;
      os ← handleFrom (S pos) rest ;
      mret (o :: os)
  end.

(** Modelled from the spec: the handler of [app/wru_validator] is missing;
    one invocation, with the outcomes in the order of the records. *)
Definition handler (batch : list InboundRecord) : Run (list RecordOutcome) :=
  handleFrom 0 batch.

(** The state in which the handler takes up the record at position [i]. *)
Definition stateBefore (batch : list InboundRecord) (st : State) (i : nat) : State :=
  snd (handler (take i batch) st).

(** The publish calls made since [st]. *)
Definition publishedSince (st st' : State) : list (nat * OutboundEvent) :=
  drop (length (published st)) (published st').

End Handler.

End Core.

(** ** How the constructs of a stack refer to one another *)

Module Wiring.
Import Cdk.

(** The roles of a scope, with their construct ids. *)
Fixpoint rolesOf (t : Tree) : list (string * Role) :=
  match t with
  | [] => []
  | (i, CRole r) :: t' => (i, r) :: rolesOf t'
  | _ :: t' => rolesOf t'
  end.

Definition layerNamed (id : string) (t : Tree) : option PythonLayerVersion :=
  match tryFindChild id t with
  | Some (CLayer l) => Some l
  | _ => None
  end.

(** Two policies allow the same: each statement of one is in the other. *)
Definition sameStatements (a b : list PolicyStatement) : Prop :=
  forall s, In s a <-> In s b.

(** A layer declares itself compatible with the runtime and the
    architecture of a function. *)
Definition layerFits (l : PythonLayerVersion) (f : PythonFunctionProps) : Prop :=
  (exists r, runtime f = Some r /\ In r (compatibleRuntimes l)) /\
  (exists a, architecture f = Some a /\ In a (compatibleArchitectures l)).


(** An ARN of partition [p]: it starts with [arn:<partition>:]. *)
Definition inPartition (p : Partition) (arn : string) : bool :=
  Granted.startsWith ("arn:" ++ partitionString p ++ ":") arn.

(** The props [createPythonFunction] starts from, before the spread of
    [functionProps]. *)
Definition functionDefaults (dirname : string) (this : Deployment.Fields)
    : PythonFunctionProps :=
  {| entry := Some (Deployment.appEntry dirname);
     runtime := Some (Deployment.lambdaRuntimePythonVersion this);
     layers := Some [Deployment.baseLayer this];
     environment := Some (Deployment.lambdaEnv this);
     securityGroups := Some [Deployment.lambdaSG this];
     vpc := Some (Deployment.vpc_ this);
     vpcSubnets := Some (PrivateSubnetsOf (Deployment.vpc_ this));
     role := Some (Deployment.lambdaRole this);
     architecture := Some ARM_64;
     memorySize := Some 1024%N;
     index := None; handler := None; timeout := None |}.

(** The role as the constructor has it when it calls
    [createEventBridgeValidator]: with the two statements the constructor
    adds itself. *)
Definition roleBeforeValidator (env : Environment) (id : string)
    (props : WruValidatorStackProps) : Role :=
  {| assumedBy := {| service := "lambda.amazonaws.com" |};
     description := "Lambda execution role for " ++ id;
     managedPolicies :=
       [fromAwsManagedPolicyName "service-role/AWSLambdaBasicExecutionRole";
        fromAwsManagedPolicyName "service-role/AWSLambdaVPCAccessExecutionRole";
        fromAwsManagedPolicyName "AmazonSSMReadOnlyAccess"];
     policy := [Deployment.schemaRegistryStatement env;
                Deployment.putEventsStatement (Granted.theBus env props)] |}.

(** The tree as the constructor has it at that point: everything but the
    function. *)
Definition beforeValidator (env : Environment) (dirname id : string)
    (props : WruValidatorStackProps) : Tree :=
  [("OrcaBusMain", CEventBus (Granted.theBus env props));
   ("MainVpc", CVpc {| vpcLookup := vpcProps props |});
   ("LambdaSecurityGroup",
    CSecurityGroup
      {| securityGroupName := lambdaSecurityGroupName props;
         securityGroupVpc := "MainVpc" |});
   ("BaseLayer",
    CLayer {| layerEntry := Deployment.appEntry dirname;
              compatibleRuntimes := [PYTHON_3_12];
              compatibleArchitectures := [ARM_64];
              layerDescription := "Base layer with common dependencies" |});
   ("LambdaRole", CRole (roleBeforeValidator env id props))].


(** The [functionProps] that [createEventBridgeValidator] passes. *)
Definition validatorProps : PythonFunctionProps :=
  {| entry := None; runtime := None; layers := None; environment := None;
     securityGroups := None; vpc := None; vpcSubnets := None;
     role := None; architecture := None; memorySize := None;
     index := Some "wru_validator/lambda/wru_draft_validator.py";
     handler := Some "lambda_handler";
     timeout := Some (Duration_seconds 28) |}.


End Wiring.

(** Sample values for running the core: the schema and the records of the
    example of the specification, section 8. *)
Module CoreSample.
Import Core.

Definition wruSchema : SchemaDefinition :=
  [ mkField "workflowRunId" true TString;
    mkField "status" true
      (TEnum ["DRAFT"; "QUEUED"; "RUNNING"; "SUCCEEDED"; "FAILED"]) ].

Definition running : DraftRecord :=
  [("workflowRunId", VString "wru.123"); ("status", VString "RUNNING")].

Definition noRunId : DraftRecord :=
  [("status", VString "RUNNING")].

Definition cancelled : DraftRecord :=
  [("workflowRunId", VString "wru.123"); ("status", VString "CANCELLED")].

(** Two offending fields at once. *)
Definition noRunIdCancelled : DraftRecord :=
  [("status", VString "CANCELLED")].

Definition cfg : Config :=
  {| busName := "OrcaBusMain";
     schema := {| registryName := "orcabus.workflowmanager";
                  schemaName := "orcabus.workflowmanager@WorkflowRunUpdate" |};
     strict := false;
     timeoutMs := 3000 |}.

(** A registry that has the schema, and one that cannot be reached. *)
Definition registryUp (n : nat) (i : SchemaIdentifier) : Answer RegistryReply :=
  {| latencyMs := 20; reply := SchemaFound wruSchema |}.

Definition registryDown (n : nat) (i : SchemaIdentifier) : Answer RegistryReply :=
  {| latencyMs := 20; reply := RegistryUnreachable |}.

Definition busUp (n : nat) (name : string) (e : OutboundEvent) : Answer BusReply :=
  {| latencyMs := 15; reply := Accepted |}.

Definition channelUp (n : nat) : bool := true.

Definition start : State :=
  {| cache := None; clock := 0; registryCalls := 0; published := [];
     reportCalls := 0; reported := [] |}.

Definition batch : list InboundRecord :=
  [ {| inboundId := "r1"; payload := running |};
    {| inboundId := "r2"; payload := cancelled |};
    {| inboundId := "r3"; payload := running |} ].

End CoreSample.

(** * Properties of the deployment *)

Module DeploymentFacts.
Import Cdk Deployment Granted.

(** The constructor never throws, and leaves these fields and this tree. *)
Lemma synth_eq env dirname id props :
  synth env dirname id props
  = Some (theFields env props, theTree env dirname id props).
Proof. reflexivity. Qed.

Lemma lambdaEnv_dom props :
  dom (makeLambdaEnv props)
  = ({[ "POWERTOOLS_SERVICE_NAME"; "POWERTOOLS_LOG_LEVEL"; "EVENT_BUS_NAME";
        "SCHEMA_NAME"; "SCHEMA_REGISTRY_NAME" ]} : gset string).
Proof.
  unfold makeLambdaEnv. rewrite !dom_insert_L, dom_empty_L. set_solver.
Qed.

Lemma lambdaEnv_lookup props k :
  makeLambdaEnv props !! k =
    if decide (k = "SCHEMA_REGISTRY_NAME") then Some "orcabus.workflowmanager"
    else if decide (k = "SCHEMA_NAME")
         then Some "orcabus.workflowmanager@WorkflowRunUpdate"
    else if decide (k = "EVENT_BUS_NAME") then Some (mainBusName props)
    else if decide (k = "POWERTOOLS_LOG_LEVEL") then Some "INFO"
    else if decide (k = "POWERTOOLS_SERVICE_NAME") then Some "wru-validator"
    else None.
Proof.
  unfold makeLambdaEnv.
  repeat (rewrite lookup_insert; case_decide; subst;
          [ repeat (case_decide; try congruence); reflexivity | ]).
  rewrite lookup_empty.
  repeat (case_decide; try congruence).
Qed.

(** Three variables are left for five options once the logger's two are
    set aside. *)
Lemma lambdaEnv_not_covering props : ~ coversSurface (makeLambdaEnv props).
Proof.
  intros (var & Hinj & Hall).
  assert (Hthree : forall o,
    var o = "EVENT_BUS_NAME" \/ var o = "SCHEMA_NAME"
    \/ var o = "SCHEMA_REGISTRY_NAME").
  { intros o. destruct (Hall o) as [[v Hv] Hlog].
    rewrite lambdaEnv_lookup in Hv.
    repeat case_decide; try discriminate; auto;
      exfalso; apply Hlog; simpl; auto. }
  pose proof (Hthree optBusName) as H1.
  pose proof (Hthree optSchemaName) as H2.
  pose proof (Hthree optRegistryName) as H3.
  pose proof (Hthree optStrict) as H4.
  destruct H1 as [H1|[H1|H1]], H2 as [H2|[H2|H2]], H3 as [H3|[H3|H3]],
           H4 as [H4|[H4|H4]];
    match goal with
    | Ha : var ?a = ?k, Hb : var ?b = ?k |- _ =>
        assert (a = b) by (apply Hinj; congruence); discriminate
    end.
Qed.

Lemma string_app_inv_head (p a b : string) : p ++ a = p ++ b -> a = b.
Proof.
  induction p as [|c p IH]; simpl; intros H; [exact H|].
  injection H as H. auto.
Qed.

Lemma eventBusArn_inj env n1 n2 :
  eventBusArn (fromEventBusName env n1) = eventBusArn (fromEventBusName env n2) ->
  n1 = n2.
Proof.
  unfold fromEventBusName, formatArn. simpl eventBusArn. intros H.
  repeat (apply string_app_inv_head in H).
  exact H.
Qed.

Lemma statementsOf_synth env dirname id props :
  statementsOf (theFunction dirname props) (theTree env dirname id props)
  = [schemaRegistryStatement env;
     putEventsStatement (theBus env props);
     putEventsStatement (theBus env props)].
Proof. reflexivity. Qed.

Lemma eventBusArn_not_schemas env n :
  isSchemasArn (eventBusArn (fromEventBusName env n)) = false.
Proof. destruct env as [[] r a]; reflexivity. Qed.

(** The policy of the function's role in the BETA stage, as text. *)
Example policy_at_beta :
  statementsOf (theFunction Sample.dirname (Config.getStackProps Sample.shared BETA))
    (theTree Sample.env Sample.dirname "WruValidatorStack"
       (Config.getStackProps Sample.shared BETA))
  = [ {| actions := ["schemas:DescribeSchema"; "schemas:GetDiscoveredSchema";
                     "schemas:ListSchemas"];
         resources :=
           ["arn:aws:schemas:ap-southeast-2:123456789012:registry/discovered-schemas";
            "arn:aws:schemas:ap-southeast-2:123456789012:schema/discovered-schemas/*"] |};
      {| actions := ["events:PutEvents"];
         resources :=
           ["arn:aws:events:ap-southeast-2:123456789012:event-bus/OrcaBusMain"] |};
      {| actions := ["events:PutEvents"];
         resources :=
           ["arn:aws:events:ap-southeast-2:123456789012:event-bus/OrcaBusMain"] |} ].
Proof. reflexivity. Qed.

(** C8: every instantiation of [WruValidatorStack] creates exactly one
    Lambda function, under the id [WruDraftValidator], and its code is the
    handler [lambda_handler] of [wru_validator/lambda/wru_draft_validator.py]. *)
Theorem stack_provisions_one_function env dirname id props :
  exists this tree f,
    synth env dirname id props = Some (this, tree) /\
    functionsOf tree = [("WruDraftValidator", f)] /\
    index f = Some "wru_validator/lambda/wru_draft_validator.py" /\
    handler f = Some "lambda_handler".
Proof.
  exists (theFields env props), (theTree env dirname id props),
         (theFunction dirname props).
  repeat split.
Qed.

(** C9: the stage given to [getStackProps] shows in the [stage] field and
    nowhere else: [vpcProps], [lambdaSecurityGroupName] and [mainBusName]
    are the shared constants whatever the stage, so the props of two stages
    are equal once their stage labels are made equal; this holds for the
    three entries of the [stackConfig] of the pipeline as well; and the
    construct tree the stack builds from the props of one stage is the tree
    it builds from those of another. *)
Theorem stage_shows_in_stage_field_only shared s1 s2 :
  vpcProps (Config.getStackProps shared s1) = VPC_LOOKUP_PROPS shared /\
  lambdaSecurityGroupName (Config.getStackProps shared s1)
    = SHARED_SECURITY_GROUP_NAME shared /\
  mainBusName (Config.getStackProps shared s1) = EVENT_BUS_NAME shared /\
  stage (Config.getStackProps shared s1) = stageString s1 /\
  (forall label,
     withStage label (Config.getStackProps shared s1)
     = withStage label (Config.getStackProps shared s2)) /\
  (forall label,
     withStage label (Toolchain.beta (Toolchain.stackConfig shared))
     = withStage label (Toolchain.gamma (Toolchain.stackConfig shared)) /\
     withStage label (Toolchain.gamma (Toolchain.stackConfig shared))
     = withStage label (Toolchain.prod (Toolchain.stackConfig shared))) /\
  (forall env dirname id,
     snd <$> synth env dirname id (Config.getStackProps shared s1)
     = snd <$> synth env dirname id (Config.getStackProps shared s2)).
Proof. repeat split. Qed.

(** C4, as the stack has it: for every stage, the environment given to the
    validator function has exactly five variables.  Three of them set options
    of the configuration surface: [EVENT_BUS_NAME] the bus name,
    [SCHEMA_NAME] the schema name and [SCHEMA_REGISTRY_NAME] the registry
    name.  The other two configure the logger.  No variable is left for a
    strictness flag or a timeout per dependency call; the one timeout the
    function is given is that of the whole invocation, 28 seconds. *)
Theorem environment_sets_three_options shared env dirname id stage_ :
  exists this tree f,
    synth env dirname id (Config.getStackProps shared stage_) = Some (this, tree) /\
    functionNamed "WruDraftValidator" tree = Some f /\
    dom (environmentOf f)
      = ({[ "POWERTOOLS_SERVICE_NAME"; "POWERTOOLS_LOG_LEVEL"; "EVENT_BUS_NAME";
            "SCHEMA_NAME"; "SCHEMA_REGISTRY_NAME" ]} : gset string) /\
    environmentOf f !! "EVENT_BUS_NAME" = Some (EVENT_BUS_NAME shared) /\
    environmentOf f !! "SCHEMA_NAME"
      = Some "orcabus.workflowmanager@WorkflowRunUpdate" /\
    environmentOf f !! "SCHEMA_REGISTRY_NAME" = Some "orcabus.workflowmanager" /\
    environmentOf f !! "POWERTOOLS_SERVICE_NAME" = Some "wru-validator" /\
    environmentOf f !! "POWERTOOLS_LOG_LEVEL" = Some "INFO" /\
    ~ coversSurface (environmentOf f) /\
    timeout f = Some (Duration_seconds 28).
Proof.
  exists (theFields env (Config.getStackProps shared stage_)),
         (theTree env dirname id (Config.getStackProps shared stage_)),
         (theFunction dirname (Config.getStackProps shared stage_)).
  split; [apply synth_eq|]. split; [reflexivity|].
  change (environmentOf (theFunction dirname (Config.getStackProps shared stage_)))
    with (makeLambdaEnv (Config.getStackProps shared stage_)).
  split; [apply lambdaEnv_dom|].
  repeat (split; [rewrite lambdaEnv_lookup; reflexivity|]).
  split; [apply lambdaEnv_not_covering|reflexivity].
Qed.

(** C4, as the claim has it, fails: in the BETA stage the environment of the
    validator function has no setting for each of the five options. *)
Lemma environment_lacks_strict_and_timeout :
  ~ (exists this tree f,
       synth Sample.env Sample.dirname "WruValidatorStack"
         (Config.getStackProps Sample.shared BETA) = Some (this, tree) /\
       functionNamed "WruDraftValidator" tree = Some f /\
       coversSurface (environmentOf f)).
Proof.
  intros (this & tree & f & Hs & Hf & Hc).
  rewrite synth_eq in Hs. injection Hs as <- <-.
  injection Hf as <-.
  exact (lambdaEnv_not_covering _ Hc).
Qed.

(** C5: in the policy the stack writes for the role of the function, a
    statement with a schema-registry ARN among its resources allows only
    [schemas:DescribeSchema], [schemas:GetDiscoveredSchema] and
    [schemas:ListSchemas], each a describe, get or list operation; such a
    statement is there; and no statement allows any other action of the
    schema registry.  (The three policies AWS manages are attached by name;
    their contents are not in the repository.) *)
Theorem registry_access_is_read_only env dirname id props :
  exists this tree f,
    synth env dirname id props = Some (this, tree) /\
    functionNamed "WruDraftValidator" tree = Some f /\
    (exists s, In s (statementsOf f tree) /\
               Forall (fun r => isSchemasArn r = true) (resources s)) /\
    (forall s, In s (statementsOf f tree) ->
       (exists r, In r (resources s) /\ isSchemasArn r = true) ->
       forall a, In a (actions s) ->
         In a ["schemas:DescribeSchema"; "schemas:GetDiscoveredSchema";
               "schemas:ListSchemas"]
         /\ readOnlyRegistryAction a = true) /\
    (forall s a, In s (statementsOf f tree) -> In a (actions s) ->
       registryAction a = true -> readOnlyRegistryAction a = true).
Proof.
  exists (theFields env props), (theTree env dirname id props),
         (theFunction dirname props).
  split; [apply synth_eq|]. split; [reflexivity|].
  rewrite statementsOf_synth. split; [|split].
  - exists (schemaRegistryStatement env). split; [left; reflexivity|].
    repeat first [reflexivity | constructor].
  - intros s Hs (r & Hr & Harn).
    destruct Hs as [<-|[<-|[<-|[]]]].
    + intros a Ha. split; [exact Ha|].
      destruct Ha as [<-|[<-|[<-|[]]]]; reflexivity.
    + destruct Hr as [<-|[]]. unfold theBus in Harn.
      rewrite eventBusArn_not_schemas in Harn. discriminate.
    + destruct Hr as [<-|[]]. unfold theBus in Harn.
      rewrite eventBusArn_not_schemas in Harn. discriminate.
  - intros s a Hs Ha Hreg.
    destruct Hs as [<-|[<-|[<-|[]]]].
    + destruct Ha as [<-|[<-|[<-|[]]]]; reflexivity.
    + destruct Ha as [<-|[]]. discriminate.
    + destruct Ha as [<-|[]]. discriminate.
Qed.

(** C6: in the policy the stack writes for the role of the function, every
    action of the event bus service is [events:PutEvents]; the statement that
    allows it has one resource, the ARN of the bus named [mainBusName], and
    so not the ARN of a bus of any other name; and such a statement is
    there. *)
Theorem only_put_events_on_the_main_bus env dirname id props :
  exists this tree f,
    synth env dirname id props = Some (this, tree) /\
    functionNamed "WruDraftValidator" tree = Some f /\
    (exists s, In s (statementsOf f tree) /\ In "events:PutEvents" (actions s)) /\
    forall s a, In s (statementsOf f tree) -> In a (actions s) ->
      eventBusAction a = true ->
      a = "events:PutEvents" /\
      actions s = ["events:PutEvents"] /\
      resources s = [eventBusArn (fromEventBusName env (mainBusName props))] /\
      forall other, other <> mainBusName props ->
        ~ In (eventBusArn (fromEventBusName env other)) (resources s).
Proof.
  exists (theFields env props), (theTree env dirname id props),
         (theFunction dirname props).
  split; [apply synth_eq|]. split; [reflexivity|].
  rewrite statementsOf_synth. split.
  - exists (putEventsStatement (theBus env props)). split; [right; left|left]; reflexivity.
  - intros s a Hs Ha Hev.
    assert (Hput : s = putEventsStatement (theBus env props)).
    { destruct Hs as [<-|[<-|[<-|[]]]]; try reflexivity.
      destruct Ha as [<-|[<-|[<-|[]]]]; discriminate. }
    subst s. destruct Ha as [<-|[]].
    repeat split.
    intros other Hne [Heq|[]]. apply Hne. symmetry.
    exact (eventBusArn_inj env _ _ Heq).
Qed.

(** C7 fails on the code: whatever the props, the function is told to use the
    registry [orcabus.workflowmanager], and the statement that allows the
    schema-registry reads names, in each of its resources, the registry
    [discovered-schemas]. *)
Theorem registry_configured_is_not_the_registry_granted env dirname id props :
  exists this tree f s,
    synth env dirname id props = Some (this, tree) /\
    functionNamed "WruDraftValidator" tree = Some f /\
    environmentOf f !! "SCHEMA_REGISTRY_NAME" = Some "orcabus.workflowmanager" /\
    In s (statementsOf f tree) /\
    actions s = ["schemas:DescribeSchema"; "schemas:GetDiscoveredSchema";
                 "schemas:ListSchemas"] /\
    resources s = map (schemasArn env)
                    ["registry/discovered-schemas"; "schema/discovered-schemas/*"] /\
    Forall (fun path => resourceRegistry path = Some "discovered-schemas"
                        /\ resourceRegistry path <> Some "orcabus.workflowmanager")
           ["registry/discovered-schemas"; "schema/discovered-schemas/*"] /\
    (forall s', In s' (statementsOf f tree) ->
       (exists a, In a (actions s') /\ registryAction a = true) -> s' = s).
Proof.
  exists (theFields env props), (theTree env dirname id props),
         (theFunction dirname props), (schemaRegistryStatement env).
  split; [apply synth_eq|]. split; [reflexivity|].
  split; [apply (lambdaEnv_lookup props)|].
  rewrite statementsOf_synth.
  split; [left; reflexivity|]. split; [reflexivity|]. split; [reflexivity|].
  split.
  - repeat constructor; discriminate.
  - intros s' Hs' (a & Ha & Hreg).
    destruct Hs' as [<-|[<-|[<-|[]]]]; try reflexivity;
      destruct Ha as [<-|[]]; discriminate.
Qed.

(** The same at the BETA stage, with the ARNs read as text. *)
Example registry_granted_at_beta :
  map (fun arn => arnResource arn ≫= resourceRegistry)
      (resources (schemaRegistryStatement Sample.env))
  = [Some "discovered-schemas"; Some "discovered-schemas"]
  /\ makeLambdaEnv (Config.getStackProps Sample.shared BETA) !! "SCHEMA_REGISTRY_NAME"
     = Some "orcabus.workflowmanager".
Proof. split; reflexivity. Qed.

(** C10: for every props, the function finds [props.mainBusName] in
    [EVENT_BUS_NAME]; the bus of the stack is the one imported under that
    name; and each statement of the function's role that allows
    [events:PutEvents] (there is one) has the ARN of that bus as its one
    resource. *)
Theorem emits_to_the_bus_it_may_put_to env dirname id props :
  exists this tree f,
    synth env dirname id props = Some (this, tree) /\
    functionNamed "WruDraftValidator" tree = Some f /\
    environmentOf f !! "EVENT_BUS_NAME" = Some (mainBusName props) /\
    mainBus this = fromEventBusName env (mainBusName props) /\
    eventBusName (mainBus this) = mainBusName props /\
    tryFindChild "OrcaBusMain" tree = Some (CEventBus (mainBus this)) /\
    (exists s, In s (statementsOf f tree) /\ In "events:PutEvents" (actions s)) /\
    (forall s, In s (statementsOf f tree) -> In "events:PutEvents" (actions s) ->
       resources s = [eventBusArn (mainBus this)]).
Proof.
  exists (theFields env props), (theTree env dirname id props),
         (theFunction dirname props).
  split; [apply synth_eq|]. split; [reflexivity|].
  split; [apply (lambdaEnv_lookup props)|].
  do 3 (split; [reflexivity|]).
  rewrite statementsOf_synth. split.
  - exists (putEventsStatement (theBus env props)). split; [right; left|left]; reflexivity.
  - intros s Hs Ha.
    destruct Hs as [<-|[<-|[<-|[]]]]; try reflexivity.
    destruct Ha as [Ha|[Ha|[Ha|[]]]]; discriminate.
Qed.

End DeploymentFacts.

(** * Properties of the validation-and-relay core *)

Module CoreFacts.
Import Core.
Local Open Scope list_scope.

(** ** Validator *)

Lemma check_object strict fs r :
  check strict (TObject (Some fs)) (VObject r)
  = checkFields strict fs r ++ (if strict then unrecognizedFields fs r else []).
Proof.
  simpl. f_equal. unfold checkFields.
  induction fs as [|[n req ty] fs IH]; simpl; [reflexivity|].
  rewrite IH. reflexivity.
Qed.

Lemma check_mismatch strict t v :
  accepts t v = false -> check strict t v = [mismatch t v].
Proof.
  destruct t as [| | |[fs|]|[ty|]|ms], v; simpl; intros H;
    try discriminate; try reflexivity.
  rewrite H. reflexivity.
Qed.

Lemma checkFields_In strict fs r f x :
  In f fs ->
  In x (match field (fieldName f) r with
        | None => if fieldRequired f then [missing (fieldName f)] else []
        | Some v' => map (under (Key (fieldName f))) (check strict (fieldType f) v')
        end) ->
  In x (checkFields strict fs r).
Proof.
  intros Hf Hx. unfold checkFields. apply in_flat_map. exists f. auto.
Qed.

Lemma check_array_In strict ty vs i v x :
  vs !! i = Some v -> In x (check strict ty v) ->
  In (under (Index i) x) (check strict (TArray (Some ty)) (VArray vs)).
Proof.
  intros Hi Hx. simpl. apply in_concat.
  exists (map (under (Index i)) (check strict ty v)). split.
  - apply list_elem_of_In, list_elem_of_lookup. exists i.
    rewrite list_lookup_imap, Hi. reflexivity.
  - apply in_map. exact Hx.
Qed.

(** Every offence has its violation, at the same path. *)
Lemma check_complete strict t v p :
  Offends t v p -> exists x, In x (check strict t v) /\ fieldPath x = p.
Proof.
  induction 1 as [t v Hacc | fs r f Hf Hreq Hnone | fs r f v p Hf Hsome _ IH
                 | ty vs i v p Hi _ IH].
  - exists (mismatch t v). rewrite (check_mismatch _ _ _ Hacc). split; [left|]; reflexivity.
  - exists (missing (fieldName f)). split; [|reflexivity].
    rewrite check_object. apply in_or_app. left.
    apply (checkFields_In _ _ _ f); [exact Hf|].
    rewrite Hnone, Hreq. left. reflexivity.
  - destruct IH as (x & Hx & Hp).
    exists (under (Key (fieldName f)) x). split; [|simpl; congruence].
    rewrite check_object. apply in_or_app. left.
    apply (checkFields_In _ _ _ f); [exact Hf|].
    rewrite Hsome. apply in_map. exact Hx.
  - destruct IH as (x & Hx & Hp).
    exists (under (Index i) x). split; [|simpl; congruence].
    exact (check_array_In _ _ _ _ _ _ Hi Hx).
Qed.

(** Induction on a type tag that reaches the tags of a declared shape. *)
Lemma TypeTag_shape_ind (P : TypeTag -> Prop) :
  P TString -> P TNumber -> P TBoolean ->
  P (TObject None) ->
  (forall fs, Forall (fun f => P (fieldType f)) fs -> P (TObject (Some fs))) ->
  P (TArray None) ->
  (forall ty, P ty -> P (TArray (Some ty))) ->
  (forall ms, P (TEnum ms)) ->
  forall t, P t.
Proof.
  intros HS HN HB HO0 HO HA0 HA HE. fix IH 1.
  intros [| | |[fs|]|[ty|]|ms];
    [exact HS|exact HN|exact HB| |exact HO0| |exact HA0|exact (HE ms)].
  - apply HO. induction fs as [|[n req ty] fs IHfs]; constructor;
      [apply IH|exact IHfs].
  - apply HA, IH.
Qed.

Lemma checkFields_inv strict fs r x :
  In x (checkFields strict fs r) ->
  exists f, In f fs /\
    In x (match field (fieldName f) r with
          | None => if fieldRequired f then [missing (fieldName f)] else []
          | Some v' => map (under (Key (fieldName f))) (check strict (fieldType f) v')
          end).
Proof. unfold checkFields. intros H. apply in_flat_map in H. exact H. Qed.

(** Where no shape is declared for the value at hand, the check is that of
    the type tag alone. *)
Lemma check_shallow strict t v :
  (forall fs r, t = TObject (Some fs) -> v <> VObject r) ->
  (forall ty vs, t = TArray (Some ty) -> v <> VArray vs) ->
  check strict t v = if accepts t v then [] else [mismatch t v].
Proof.
  intros Hobj Harr.
  destruct t as [| | |[fs|]|[ty|]|ms], v; try reflexivity.
  - destruct (Hobj fs fields eq_refl eq_refl).
  - destruct (Harr ty items eq_refl eq_refl).
Qed.

Lemma check_shallow_sound strict t v x :
  check strict t v = (if accepts t v then [] else [mismatch t v]) ->
  In x (check strict t v) -> Offends t v (fieldPath x).
Proof.
  intros -> Hx. destruct (accepts t v) eqn:Hacc; [destruct Hx|].
  destruct Hx as [<-|[]]. apply off_type. exact Hacc.
Qed.

(** In tolerant mode the violations are the offences and nothing else. *)
Lemma check_sound t :
  forall v x, In x (check false t v) -> Offends t v (fieldPath x).
Proof.
  induction t as [| | | |fs IH| |ty IH|ms] using TypeTag_shape_ind; intros v x Hx.
  1-4,6,8: (apply (check_shallow_sound false); [|exact Hx];
            apply check_shallow; discriminate).
  - destruct v as [| | | |r|];
      try (apply (check_shallow_sound false); [|exact Hx];
           apply check_shallow; discriminate).
    rewrite check_object, app_nil_r in Hx.
    apply checkFields_inv in Hx. destruct Hx as (f & Hf & Hx).
    destruct (field (fieldName f) r) as [v'|] eqn:Hfield.
    + apply in_map_iff in Hx. destruct Hx as (y & <- & Hy).
      simpl. apply (off_field fs r f v'); [exact Hf|exact Hfield|].
      rewrite Forall_forall in IH.
      exact (IH f (proj2 (list_elem_of_In _ _) Hf) v' y Hy).
    + destruct (fieldRequired f) eqn:Hreq; [|destruct Hx].
      destruct Hx as [<-|[]]. simpl. apply off_missing; assumption.
  - destruct v as [| | | | |vs];
      try (apply (check_shallow_sound false); [|exact Hx];
           apply check_shallow; discriminate).
    simpl in Hx. apply in_concat in Hx. destruct Hx as (l & Hl & Hx).
    apply list_elem_of_In, list_elem_of_lookup in Hl. destruct Hl as (i & Hi).
    rewrite list_lookup_imap in Hi.
    destruct (vs !! i) as [v'|] eqn:Hvi; [|discriminate].
    injection Hi as <-. apply in_map_iff in Hx. destruct Hx as (y & <- & Hy).
    simpl. apply (off_item ty vs i v'); [exact Hvi|]. exact (IH v' y Hy).
Qed.

(** C2: for every schema definition and every draft record with a missing
    required field or a type mismatch somewhere, in strict mode or not,
    [validate] returns [Invalid], and the violations it carries have an entry
    at the path of each offending field, whichever field came first. *)
Theorem validate_reports_every_offending_field strict def r :
  (exists p, Offending def r p) ->
  exists vs,
    validate strict def r = Invalid vs /\
    vs <> [] /\
    forall p, Offending def r p -> exists x, In x vs /\ fieldPath x = p.
Proof.
  intros (p0 & H0).
  destruct (check_complete strict _ _ _ H0) as (x0 & Hx0 & _).
  unfold validate.
  destruct (check strict (TObject (Some def)) (VObject r)) as [|y ys] eqn:Hc;
    [destruct Hx0|].
  exists (y :: ys). split; [reflexivity|]. split; [discriminate|].
  intros p Hp. rewrite <- Hc. exact (check_complete strict _ _ _ Hp).
Qed.

(** The record with no [workflowRunId] and a [status] outside the enum: both
    fields are reported. *)
Lemma validate_reports_every_offending_field_witness :
  exists vs,
    validate false CoreSample.wruSchema CoreSample.noRunIdCancelled = Invalid vs /\
    vs <> [] /\
    forall p, Offending CoreSample.wruSchema CoreSample.noRunIdCancelled p ->
      exists x, In x vs /\ fieldPath x = p.
Proof.
  apply (validate_reports_every_offending_field false
           CoreSample.wruSchema CoreSample.noRunIdCancelled).
  exists [Key "workflowRunId"].
  apply (off_missing CoreSample.wruSchema CoreSample.noRunIdCancelled
           (mkField "workflowRunId" true TString)).
  - simpl. left. reflexivity.
  - reflexivity.
  - reflexivity.
Defined.

(** In tolerant mode a record is valid exactly when no field offends. *)
Lemma validate_valid_iff def r :
  validate false def r = Valid (canonicalRecord def r) <->
  forall p, ~ Offending def r p.
Proof.
  unfold validate, Offending. split.
  - intros Hv p Hp. destruct (check_complete false _ _ _ Hp) as (x & Hx & _).
    destruct (check false (TObject (Some def)) (VObject r)); [destruct Hx|discriminate].
  - intros Hnone.
    destruct (check false (TObject (Some def)) (VObject r)) as [|x xs] eqn:Hc;
      [reflexivity|].
    destruct (Hnone (fieldPath x)). apply check_sound. rewrite Hc. left. reflexivity.
Qed.

(** The examples of the specification, section 8. *)
Example validate_running :
  validate false CoreSample.wruSchema CoreSample.running
  = Valid CoreSample.running.
Proof. reflexivity. Qed.

Example validate_noRunId :
  validate false CoreSample.wruSchema CoreSample.noRunId
  = Invalid [ {| fieldPath := [Key "workflowRunId"];
                 expected := ExpectedPresence Required;
                 actualDescription := "missing" |} ].
Proof. reflexivity. Qed.

Example validate_cancelled :
  validate false CoreSample.wruSchema CoreSample.cancelled
  = Invalid [ {| fieldPath := [Key "status"];
                 expected := ExpectedType
                   (TEnum ["DRAFT"; "QUEUED"; "RUNNING"; "SUCCEEDED"; "FAILED"]);
                 actualDescription := "string" |} ].
Proof. reflexivity. Qed.

Example validate_noRunIdCancelled :
  match validate false CoreSample.wruSchema CoreSample.noRunIdCancelled with
  | Invalid vs => map fieldPath vs = [[Key "workflowRunId"]; [Key "status"]]
  | Valid _ => False
  end.
Proof. reflexivity. Qed.

(** ** Handler *)

Section HandlerFacts.
Variable registry : nat -> SchemaIdentifier -> Answer RegistryReply.
Variable bus : nat -> string -> OutboundEvent -> Answer BusReply.
Variable reportChannel : nat -> bool.
Variable relaySource : string.
Variable excerptLimit : nat.
Variable cfg : Config.

Local Abbreviation resolve := (resolve registry cfg).
Local Abbreviation emit := (emit bus relaySource cfg).
Local Abbreviation report := (report reportChannel excerptLimit cfg).
Local Abbreviation handleRecord := (handleRecord registry bus reportChannel relaySource excerptLimit cfg).
Local Abbreviation handleFrom := (handleFrom registry bus reportChannel relaySource excerptLimit cfg).
Local Abbreviation handler := (handler registry bus reportChannel relaySource excerptLimit cfg).
Local Abbreviation stateBefore := (stateBefore registry bus reportChannel relaySource excerptLimit cfg).

Lemma resolve_published st : published (snd (resolve st)) = published st.
Proof.
  unfold Core.resolve, lookupRegistry.
  destruct (cached cfg st) as [def|]; [reflexivity|].
  destruct (bounded _ _) as [[]|]; reflexivity.
Qed.

Lemma emit_published pos c st :
  exists e, published (snd (emit pos c st)) = published st ++ [(pos, e)].
Proof.
  unfold Core.emit. eexists.
  destruct (bounded _ _) as [[]|]; reflexivity.
Qed.

Lemma report_published r vs st : published (snd (report r vs st)) = published st.
Proof. reflexivity. Qed.

(** One record: the outcome by the stage at which the state machine stops. *)
Lemma handleRecord_unfold pos r st :
  handleRecord pos r st =
  match fst (resolve st) with
  | inr e => (failed r e, snd (resolve st))
  | inl def =>
      match validate (strict cfg) def (payload r) with
      | Valid c =>
          let sent := emit pos c (snd (resolve st)) in
          (match fst sent with
           | None => {| recordId := inboundId r; status := emitted;
                        outcomeDetail := Delivered |}
           | Some e => failed r e
           end, snd sent)
      | Invalid vs =>
          ({| recordId := inboundId r; status := rejected;
              outcomeDetail := Violations vs |},
           snd (report (payload r) vs (snd (resolve st))))
      end
  end.
Proof.
  unfold Core.handleRecord, mbind, run_bind, mret, run_ret.
  destruct (resolve st) as [[def|e] st1]; simpl; [|reflexivity].
  destruct (validate (strict cfg) def (payload r)) as [c|vs]; simpl.
  - destruct (emit pos c st1) as [[e|] st2]; reflexivity.
  - destruct (report (payload r) vs st1) as [[] st2]. reflexivity.
Qed.

(** A failed publish is never a rejection. *)
Lemma emit_not_rejected pos c st e :
  fst (emit pos c st) = Some e -> statusOf e <> rejected.
Proof.
  unfold Core.emit. destruct (bounded _ _) as [[]|]; simpl; intros H;
    inversion H; discriminate.
Qed.

(** One record: its publish calls are its own, and a rejected record has
    none. *)
Lemma handleRecord_published pos r st :
  exists new,
    published (snd (handleRecord pos r st)) = published st ++ new /\
    (forall e, In e new -> fst e = pos) /\
    (status (fst (handleRecord pos r st)) = rejected -> new = []).
Proof.
  rewrite handleRecord_unfold.
  pose proof (resolve_published st) as Hres.
  destruct (fst (resolve st)) as [def|e].
  - destruct (validate (strict cfg) def (payload r)) as [c|vs].
    + destruct (emit_published pos c (snd (resolve st))) as (ev & Hev).
      exists [(pos, ev)]. cbv zeta. cbn [snd]. rewrite Hev, Hres.
      split; [reflexivity|]. split.
      * intros e [<-|[]]. reflexivity.
      * cbn [fst].
        destruct (fst (emit pos c (snd (resolve st)))) as [e|] eqn:He;
          simpl; [|discriminate].
        intros Hrej. destruct (emit_not_rejected _ _ _ _ He Hrej).
    + exists []. cbn [snd]. rewrite report_published, Hres, app_nil_r.
      split; [reflexivity|]. split; [intros e []|reflexivity].
  - exists []. cbn [snd]. rewrite Hres, app_nil_r.
    split; [reflexivity|]. split; [intros e' []|reflexivity].
Qed.

Lemma handleFrom_cons pos r rest st :
  handleFrom pos (r :: rest) st =
  (fst (handleRecord pos r st)
     :: fst (handleFrom (S pos) rest (snd (handleRecord pos r st))),
   snd (handleFrom (S pos) rest (snd (handleRecord pos r st)))).
Proof.
  simpl. unfold mbind, run_bind, mret, run_ret.
  destruct (handleRecord pos r st) as [o st1]. simpl.
  destruct (Core.handleFrom _ _ _ _ _ _ (S pos) rest st1) as [os st2].
  reflexivity.
Qed.

Lemma handleFrom_app pos l1 l2 st :
  handleFrom pos (l1 ++ l2) st =
  (fst (handleFrom pos l1 st)
     ++ fst (handleFrom (pos + length l1) l2 (snd (handleFrom pos l1 st))),
   snd (handleFrom (pos + length l1) l2 (snd (handleFrom pos l1 st)))).
Proof.
  revert pos st. induction l1 as [|r l1 IH]; intros pos st.
  - simpl. rewrite Nat.add_0_r. unfold mret, run_ret. simpl.
    destruct (handleFrom pos l2 st). reflexivity.
  - rewrite <- app_comm_cons, !handleFrom_cons, IH. simpl.
    replace (pos + S (length l1)) with (S pos + length l1) by lia.
    reflexivity.
Qed.

Lemma handleFrom_length pos l st : length (fst (handleFrom pos l st)) = length l.
Proof.
  revert pos st. induction l as [|r l IH]; intros pos st; [reflexivity|].
  rewrite handleFrom_cons. simpl. rewrite IH. reflexivity.
Qed.

(** The outcome at position [i] is that of the record at [i], handled in the
    state the records before it leave. *)
Lemma handler_outcome batch st i r :
  batch !! i = Some r ->
  fst (handler batch st) !! i
  = Some (fst (handleRecord i r (stateBefore batch st i))).
Proof.
  intros Hi. unfold Core.stateBefore, Core.handler.
  pose proof (take_drop_middle _ _ _ Hi) as Hsplit.
  rewrite <- Hsplit at 1.
  rewrite handleFrom_app. cbn [fst].
  assert (Hlen : length (take i batch) = i).
  { apply length_take_le. apply lookup_lt_Some in Hi. lia. }
  rewrite lookup_app_r; rewrite handleFrom_length, Hlen; [|lia].
  rewrite Nat.sub_diag, handleFrom_cons. reflexivity.
Qed.

(** A batch: every publish call was made for a record of the batch whose
    outcome is not [rejected]. *)
Lemma handleFrom_published pos l st :
  exists new,
    published (snd (handleFrom pos l st)) = published st ++ new /\
    forall e, In e new ->
      exists o, pos <= fst e /\
                fst (handleFrom pos l st) !! (fst e - pos) = Some o /\
                status o <> rejected.
Proof.
  revert pos st. induction l as [|r l IH]; intros pos st.
  - exists []. simpl. rewrite app_nil_r. split; [reflexivity|intros e []].
  - rewrite handleFrom_cons. cbn [fst snd].
    destruct (handleRecord_published pos r st) as (n1 & H1 & Hpos & Hrej).
    destruct (IH (S pos) (snd (handleRecord pos r st))) as (n2 & H2 & Hrest).
    exists (n1 ++ n2). rewrite H2, H1, app_assoc. split; [reflexivity|].
    intros e He. apply in_app_or in He. destruct He as [He|He].
    + exists (fst (handleRecord pos r st)).
      rewrite (Hpos e He), Nat.sub_diag. split; [lia|]. split; [reflexivity|].
      intros Hr. rewrite (Hrej Hr) in He. destruct He.
    + destruct (Hrest e He) as (o & Hle & Ho & Hs).
      exists o. split; [lia|]. split; [|exact Hs].
      replace (fst e - pos) with (S (fst e - S pos)) by lia. exact Ho.
Qed.

(** No publish call is made for a record the handler rejects. *)
Lemma rejected_outcome_not_published batch st i o :
  fst (handler batch st) !! i = Some o -> status o = rejected ->
  forall e, In e (publishedSince st (snd (handler batch st))) -> fst e <> i.
Proof.
  intros Ho Hrej e He Hi. unfold Core.handler in *.
  destruct (handleFrom_published 0 batch st) as (new & Hnew & Hall).
  unfold publishedSince in He. rewrite Hnew, drop_app_length in He.
  destruct (Hall e He) as (o' & _ & Ho' & Hs).
  rewrite Nat.sub_0_r, Hi, Ho in Ho'. injection Ho' as <-. exact (Hs Hrej).
Qed.

(** C1: take a record of a batch, at position [i], for which the resolver
    gives a definition and validation against it fails.  The outcome of the
    record is [rejected], with the violations, and none of the publish calls
    the handler makes on the bus in this invocation is for the record. *)
Theorem rejected_record_is_never_published batch st i r def vs :
  batch !! i = Some r ->
  fst (resolve (stateBefore batch st i)) = inl def ->
  validate (strict cfg) def (payload r) = Invalid vs ->
  (exists o, fst (handler batch st) !! i = Some o /\
             recordId o = inboundId r /\
             status o = rejected /\
             outcomeDetail o = Violations vs) /\
  forall e, In e (publishedSince st (snd (handler batch st))) -> fst e <> i.
Proof.
  intros Hi Hres Hval.
  pose proof (handler_outcome batch st i r Hi) as Ho.
  rewrite handleRecord_unfold, Hres, Hval in Ho. cbn [fst] in Ho.
  split.
  - eexists. split; [exact Ho|]. repeat split.
  - exact (rejected_outcome_not_published batch st i _ Ho eq_refl).
Qed.

(** C3: take a record of a batch, at position [i], for which schema
    resolution fails on a transient condition of the registry (it cannot be
    reached, or does not answer in time).  The outcome of the record is
    [transientFailure], and so not [rejected]. *)
Theorem transient_resolution_failure_is_not_a_rejection batch st i r :
  batch !! i = Some r ->
  fst (resolve (stateBefore batch st i)) = inr RegistryUnavailable ->
  exists o, fst (handler batch st) !! i = Some o /\
            recordId o = inboundId r /\
            status o = transientFailure /\
            status o <> rejected /\
            outcomeDetail o = Failure RegistryUnavailable.
Proof.
  intros Hi Hres.
  pose proof (handler_outcome batch st i r Hi) as Ho.
  rewrite handleRecord_unfold, Hres in Ho. cbn [fst] in Ho.
  eexists. split; [exact Ho|]. repeat split. discriminate.
Qed.

(** When the resolver fails on a transient condition: the cache has no
    definition for the schema, and the registry cannot be reached or does not
    answer within the timeout. *)
Lemma resolve_unavailable st :
  fst (resolve st) = inr RegistryUnavailable <->
  cached cfg st = None /\
  (bounded (timeoutMs cfg) (registry (registryCalls st) (schema cfg)) = None \/
   bounded (timeoutMs cfg) (registry (registryCalls st) (schema cfg))
   = Some RegistryUnreachable).
Proof.
  unfold Core.resolve, lookupRegistry.
  destruct (cached cfg st) as [def|]; cbn [fst].
  - split; [discriminate|]. intros [H _]. discriminate.
  - destruct (bounded _ _) as [[]|]; cbn [fst]; split;
      try discriminate; try (intros [_ [H|H]]; discriminate); auto.
Qed.

End HandlerFacts.

(** A batch of three whose second record has a [status] outside the enum. *)
Lemma rejected_record_is_never_published_witness :
  (exists o,
     fst (handler CoreSample.registryUp CoreSample.busUp CoreSample.channelUp
            "wru-validator" 8 CoreSample.cfg CoreSample.batch CoreSample.start)
       !! 1 = Some o /\
     recordId o = "r2" /\
     status o = rejected /\
     outcomeDetail o
       = Violations (check false (TObject (Some CoreSample.wruSchema))
                       (VObject CoreSample.cancelled))) /\
  forall e,
    In e (publishedSince CoreSample.start
            (snd (handler CoreSample.registryUp CoreSample.busUp
                    CoreSample.channelUp "wru-validator" 8 CoreSample.cfg
                    CoreSample.batch CoreSample.start))) ->
    fst e <> 1.
Proof.
  apply (rejected_record_is_never_published
           CoreSample.registryUp CoreSample.busUp CoreSample.channelUp
           "wru-validator" 8 CoreSample.cfg CoreSample.batch CoreSample.start 1
           {| inboundId := "r2"; payload := CoreSample.cancelled |}
           CoreSample.wruSchema).
  - reflexivity.
  - reflexivity.
  - reflexivity.
Defined.

(** The batch of three of section 8: the second record fails validation, the
    first and the third are emitted, and the bus sees two calls. *)
Example handler_batch_of_three :
  let run := handler CoreSample.registryUp CoreSample.busUp CoreSample.channelUp
               "wru-validator" 8 CoreSample.cfg CoreSample.batch CoreSample.start in
  map status (fst run) = [emitted; rejected; emitted]
  /\ map fst (published (snd run)) = [0; 2]
  /\ map detailType (map snd (published (snd run)))
     = ["orcabus.workflowmanager@WorkflowRunUpdate";
        "orcabus.workflowmanager@WorkflowRunUpdate"]
  /\ registryCalls (snd run) = 1
  /\ length (reported (snd run)) = 1.
Proof. repeat split. Qed.

(** A batch of three while the registry cannot be reached. *)
Lemma transient_resolution_failure_is_not_a_rejection_witness :
  exists o,
    fst (handler CoreSample.registryDown CoreSample.busUp CoreSample.channelUp
           "wru-validator" 8 CoreSample.cfg CoreSample.batch CoreSample.start)
      !! 2 = Some o /\
    recordId o = "r3" /\
    status o = transientFailure /\
    status o <> rejected /\
    outcomeDetail o = Failure RegistryUnavailable.
Proof.
  apply (transient_resolution_failure_is_not_a_rejection
           CoreSample.registryDown CoreSample.busUp CoreSample.channelUp
           "wru-validator" 8 CoreSample.cfg CoreSample.batch CoreSample.start 2
           {| inboundId := "r3"; payload := CoreSample.running |}).
  - reflexivity.
  - reflexivity.
Defined.

End CoreFacts.

(** * More on the deployment: roles, references and what the props reach *)

Module WiringFacts.
Import Cdk Deployment Granted Wiring.
Local Open Scope list_scope.

(** ** The construct tree *)

Lemma tryFindChild_app id t i c :
  tryFindChild id (t ++ [(i, c)]) =
  match tryFindChild id t with
  | Some x => Some x
  | None => if String.eqb i id then Some c else None
  end.
Proof.
  induction t as [|[j d] t IH]; simpl; [reflexivity|].
  destruct (String.eqb j id); [reflexivity|exact IH].
Qed.

(** [updateRole] keeps every id where it is, and only changes a role. *)
Lemma tryFindChild_updateRole_None id i g t :
  tryFindChild id (updateRole i g t) = None <-> tryFindChild id t = None.
Proof.
  induction t as [|[j d] t IH]; simpl; [reflexivity|].
  destruct d; simpl; try (destruct (String.eqb j id); [split; discriminate|exact IH]).
  destruct (String.eqb j i); simpl;
    (destruct (String.eqb j id); [split; discriminate|]); [reflexivity|exact IH].
Qed.

Lemma updateRole_app_function i g t n f :
  updateRole i g (t ++ [(n, CFunction f)]) = updateRole i g t ++ [(n, CFunction f)].
Proof.
  induction t as [|[j d] t IH]; simpl; [reflexivity|].
  destruct d; simpl; try (rewrite IH; reflexivity).
  destruct (String.eqb j i); [reflexivity|]. rewrite IH. reflexivity.
Qed.

(** Where the first construct under [i] is a role, [updateRole] changes that
    role and no other construct. *)
Lemma findRole_updateRole i g t r :
  findRole i t = Some r -> findRole i (updateRole i g t) = Some (g r).
Proof.
  unfold findRole. induction t as [|[j d] t IH]; simpl; [discriminate|].
  destruct (String.eqb j i) eqn:Hj.
  - destruct d; try discriminate. intros [= ->]. simpl. rewrite ?Hj.
    reflexivity.
  - intros H. destruct d; simpl; rewrite ?Hj; simpl; rewrite ?Hj; auto.
Qed.


(** ** [createPythonFunction] and [createEventBridgeValidator] *)

Lemma createPythonFunction_run dirname this n fp t :
  createPythonFunction dirname this n fp t =
  match tryFindChild n t with
  | Some _ => None
  | None => Some (n, t ++ [(n, CFunction (spread (functionDefaults dirname this) fp))])
  end.
Proof.
  unfold createPythonFunction, create, addChild.
  destruct (tryFindChild n t); reflexivity.
Qed.


Lemma findRole_app i t n f r :
  findRole i t = Some r -> findRole i (t ++ [(n, CFunction f)]) = Some r.
Proof.
  unfold findRole. rewrite tryFindChild_app.
  destruct (tryFindChild i t) as [c|]; [auto|discriminate].
Qed.


Lemma grantPutEventsTo_run bus n t f roleId :
  tryFindChild n t = Some (CFunction f) -> role f = Some roleId ->
  grantPutEventsTo bus n t
  = Some (tt, updateRole roleId (role_addToPolicy (putEventsStatement bus)) t).
Proof.
  intros Hn Hr. unfold grantPutEventsTo. rewrite Hn, Hr. reflexivity.
Qed.

(** What [createEventBridgeValidator] does to a tree: it throws when the
    name is taken, and otherwise adds the function and, to the role of the
    stack, the statement of the grant. *)
Lemma createEventBridgeValidator_run dirname this t :
  createEventBridgeValidator dirname this t =
  match tryFindChild "WruDraftValidator" t with
  | Some _ => None
  | None =>
      Some (tt, updateRole (lambdaRole this)
                  (role_addToPolicy (putEventsStatement (mainBus this)))
                  (t ++ [("WruDraftValidator",
                          CFunction (spread (functionDefaults dirname this)
                                       validatorProps))]))
  end.
Proof.
  unfold createEventBridgeValidator, mbind, build_bind.
  change (createPythonFunction dirname this "WruDraftValidator" _ t)
    with (createPythonFunction dirname this "WruDraftValidator" validatorProps t).
  rewrite createPythonFunction_run.
  destruct (tryFindChild "WruDraftValidator" t) eqn:Hfresh; [reflexivity|].
  apply (grantPutEventsTo_run _ _ _
           (spread (functionDefaults dirname this) validatorProps)).
  - rewrite tryFindChild_app, Hfresh. reflexivity.
  - reflexivity.
Qed.

(** X3: [createEventBridgeValidator] runs once in a stack: after a run that
    went through, a second run throws, and so does any
    [createPythonFunction] under the name [WruDraftValidator], whatever the
    props. *)
Theorem validator_is_created_once dirname this t t' :
  createEventBridgeValidator dirname this t = Some (tt, t') ->
  createEventBridgeValidator dirname this t' = None /\
  forall fp, createPythonFunction dirname this "WruDraftValidator" fp t' = None.
Proof.
  rewrite createEventBridgeValidator_run.
  destruct (tryFindChild "WruDraftValidator" t) eqn:Hfresh; [discriminate|].
  intros [= <-].
  assert (Htaken : tryFindChild "WruDraftValidator"
            (updateRole (lambdaRole this)
               (role_addToPolicy (putEventsStatement (mainBus this)))
               (t ++ [("WruDraftValidator",
                       CFunction (spread (functionDefaults dirname this)
                                    validatorProps))])) <> None).
  { rewrite tryFindChild_updateRole_None, tryFindChild_app, Hfresh. discriminate. }
  split.
  - rewrite createEventBridgeValidator_run.
    destruct (tryFindChild "WruDraftValidator" (updateRole _ _ _));
      [reflexivity|congruence].
  - intros fp. rewrite createPythonFunction_run.
    destruct (tryFindChild "WruDraftValidator" (updateRole _ _ _));
      [reflexivity|congruence].
Qed.

(** The stack of the BETA stage: the tree the constructor ends with takes no
    second validator. *)
Lemma validator_is_created_once_witness :
  createEventBridgeValidator Sample.dirname
    (theFields Sample.env (Config.getStackProps Sample.shared BETA))
    (theTree Sample.env Sample.dirname "WruValidatorStack"
       (Config.getStackProps Sample.shared BETA)) = None /\
  forall fp,
    createPythonFunction Sample.dirname
      (theFields Sample.env (Config.getStackProps Sample.shared BETA))
      "WruDraftValidator" fp
      (theTree Sample.env Sample.dirname "WruValidatorStack"
         (Config.getStackProps Sample.shared BETA)) = None.
Proof.
  apply (validator_is_created_once Sample.dirname
           (theFields Sample.env (Config.getStackProps Sample.shared BETA))
           (beforeValidator Sample.env Sample.dirname "WruValidatorStack"
              (Config.getStackProps Sample.shared BETA))).
  reflexivity.
Defined.



(** The constructor is the tree before the validator, then
    [createEventBridgeValidator]. *)
Lemma constructor_ends_with_validator env dirname id props :
  createEventBridgeValidator dirname (theFields env props)
    (beforeValidator env dirname id props)
  = Some (tt, theTree env dirname id props).
Proof. reflexivity. Qed.

(** X2: the grant of [createEventBridgeValidator] repeats the statement the
    constructor has written already.  Where the role of the stack allows
    [events:PutEvents] on the main bus before the call, the call adds that
    statement once more at the end of the policy, and the role allows after
    the call what it allowed before; the trust and the managed policies of
    the role stay. *)
Theorem grant_repeats_the_explicit_statement dirname this t t' r :
  createEventBridgeValidator dirname this t = Some (tt, t') ->
  findRole (lambdaRole this) t = Some r ->
  In (putEventsStatement (mainBus this)) (policy r) ->
  exists r',
    findRole (lambdaRole this) t' = Some r' /\
    policy r' = policy r ++ [putEventsStatement (mainBus this)] /\
    sameStatements (policy r') (policy r) /\
    managedPolicies r' = managedPolicies r /\
    assumedBy r' = assumedBy r.
Proof.
  rewrite createEventBridgeValidator_run.
  destruct (tryFindChild "WruDraftValidator" t) eqn:Hfresh; [discriminate|].
  intros [= <-] Hrole Hin.
  exists (role_addToPolicy (putEventsStatement (mainBus this)) r).
  split; [apply findRole_updateRole, findRole_app, Hrole|].
  split; [reflexivity|]. split; [|split; reflexivity].
  intros s. simpl. rewrite in_app_iff. split; [|auto].
  intros [H|[<-|[]]]; assumption.
Qed.

(** The stack of the BETA stage, at the call the constructor makes. *)
Lemma grant_repeats_the_explicit_statement_witness :
  exists r',
    findRole "LambdaRole"
      (theTree Sample.env Sample.dirname "WruValidatorStack"
         (Config.getStackProps Sample.shared BETA)) = Some r' /\
    policy r'
    = policy (roleBeforeValidator Sample.env "WruValidatorStack"
                (Config.getStackProps Sample.shared BETA))
      ++ [putEventsStatement
            (theBus Sample.env (Config.getStackProps Sample.shared BETA))] /\
    sameStatements (policy r')
      (policy (roleBeforeValidator Sample.env "WruValidatorStack"
                 (Config.getStackProps Sample.shared BETA))) /\
    managedPolicies r'
    = managedPolicies (roleBeforeValidator Sample.env "WruValidatorStack"
                         (Config.getStackProps Sample.shared BETA)) /\
    assumedBy r'
    = assumedBy (roleBeforeValidator Sample.env "WruValidatorStack"
                   (Config.getStackProps Sample.shared BETA)).
Proof.
  apply (grant_repeats_the_explicit_statement Sample.dirname
           (theFields Sample.env (Config.getStackProps Sample.shared BETA))
           (beforeValidator Sample.env Sample.dirname "WruValidatorStack"
              (Config.getStackProps Sample.shared BETA))
           (theTree Sample.env Sample.dirname "WruValidatorStack"
              (Config.getStackProps Sample.shared BETA))
           (roleBeforeValidator Sample.env "WruValidatorStack"
              (Config.getStackProps Sample.shared BETA))).
  - reflexivity.
  - reflexivity.
  - right. left. reflexivity.
Defined.

(** ** The stack the constructor builds *)

(** X4: the function is placed in one VPC throughout: the VPC it names is
    the one looked up with [props.vpcProps], its subnets are the private
    subnets of that VPC, and its one security group is the group named
    [props.lambdaSecurityGroupName], looked up in that same VPC. *)
Theorem function_is_placed_in_the_looked_up_vpc env dirname id props :
  exists this tree f v g,
    synth env dirname id props = Some (this, tree) /\
    functionNamed "WruDraftValidator" tree = Some f /\
    vpc f = Some v /\
    tryFindChild v tree = Some (CVpc {| vpcLookup := vpcProps props |}) /\
    vpcSubnets f = Some (PrivateSubnetsOf v) /\
    securityGroups f = Some [g] /\
    tryFindChild g tree
    = Some (CSecurityGroup
              {| securityGroupName := lambdaSecurityGroupName props;
                 securityGroupVpc := v |}).
Proof.
  exists (theFields env props), (theTree env dirname id props),
         (theFunction dirname props), "MainVpc"%string,
         "LambdaSecurityGroup"%string.
  split; [apply DeploymentFacts.synth_eq|]. repeat split.
Qed.

(** X5: the function has one layer, the base layer of the stack; the layer
    is bundled from the directory the function is bundled from, and declares
    itself compatible with the runtime and the architecture the function has. *)
Theorem base_layer_fits_the_function env dirname id props :
  exists this tree f layerId l,
    synth env dirname id props = Some (this, tree) /\
    functionNamed "WruDraftValidator" tree = Some f /\
    layers f = Some [layerId] /\
    layerNamed layerId tree = Some l /\
    entry f = Some (layerEntry l) /\
    layerFits l f.
Proof.
  exists (theFields env props), (theTree env dirname id props),
         (theFunction dirname props), "BaseLayer"%string.
  eexists. split; [apply DeploymentFacts.synth_eq|].
  split; [reflexivity|]. split; [reflexivity|]. split; [reflexivity|].
  split; [reflexivity|]. split.
  - exists PYTHON_3_12. split; [reflexivity|left; reflexivity].
  - exists ARM_64. split; [reflexivity|left; reflexivity].
Qed.

(** X6: the stack has one role, the one the function runs under.  The Lambda
    service alone may assume it; its description ends with the id of the
    stack; and it has the three policies AWS manages, for logs, for network
    interfaces in a VPC, and for reading SSM. *)
Theorem one_role_for_lambda_only env dirname id props :
  exists this tree f r,
    synth env dirname id props = Some (this, tree) /\
    functionNamed "WruDraftValidator" tree = Some f /\
    rolesOf tree = [("LambdaRole"%string, r)] /\
    role f = Some "LambdaRole"%string /\
    assumedBy r = {| service := "lambda.amazonaws.com" |} /\
    description r = ("Lambda execution role for " ++ id)%string /\
    map managedPolicyName (managedPolicies r)
    = ["service-role/AWSLambdaBasicExecutionRole";
       "service-role/AWSLambdaVPCAccessExecutionRole";
       "AmazonSSMReadOnlyAccess"]%string.
Proof.
  exists (theFields env props), (theTree env dirname id props),
         (theFunction dirname props), (theRole env id props).
  split; [apply DeploymentFacts.synth_eq|]. repeat split.
Qed.





(** X8: the props of two stages are equal only when the stages are: the
    three entries of the [stackConfig] of the pipeline are three different
    props, told apart by their labels [BETA], [GAMMA] and [PROD]. *)
Theorem stage_props_are_told_apart shared :
  (forall s1 s2,
     Config.getStackProps shared s1 = Config.getStackProps shared s2 <-> s1 = s2) /\
  stage (Toolchain.beta (Toolchain.stackConfig shared)) = "BETA"%string /\
  stage (Toolchain.gamma (Toolchain.stackConfig shared)) = "GAMMA"%string /\
  stage (Toolchain.prod (Toolchain.stackConfig shared)) = "PROD"%string /\
  Toolchain.beta (Toolchain.stackConfig shared)
    <> Toolchain.gamma (Toolchain.stackConfig shared) /\
  Toolchain.gamma (Toolchain.stackConfig shared)
    <> Toolchain.prod (Toolchain.stackConfig shared) /\
  Toolchain.beta (Toolchain.stackConfig shared)
    <> Toolchain.prod (Toolchain.stackConfig shared).
Proof.
  split; [|repeat split; discriminate].
  intros s1 s2. split; [|intros ->; reflexivity].
  intros H. apply (f_equal stage) in H. destruct s1, s2; try reflexivity; discriminate.
Qed.


(** X10: the ARN of the bus follows the partition of the stack, the ARNs of
    the schema registry do not: they are ARNs of partition [aws] wherever
    the stack is, so they are ARNs of the partition of the stack only when
    that is [aws]. *)
Theorem registry_arns_are_pinned_to_partition_aws env props :
  Forall (fun r => inPartition aws r = true /\
                   (inPartition (partition env) r = true <-> partition env = aws))
         (resources (schemaRegistryStatement env)) /\
  Forall (fun r => inPartition (partition env) r = true)
         (resources (putEventsStatement (fromEventBusName env (mainBusName props)))).
Proof.
  destruct env as [p rg ac]. split.
  - constructor; [|constructor; [|constructor]];
      (split; [reflexivity|]);
      destruct p; simpl; split; intros H; try reflexivity; discriminate.
  - constructor; [|constructor]. destruct p; reflexivity.
Qed.

End WiringFacts.
